(** * Sessions dashboard: token usage and cost aggregation

    A shallow embedding of [server.py]: the pricing table and [_cost],
    the project folder decoder [_decode_project_folder], the usage
    aggregator [compute_usage] and the session summarizer
    [compute_sessions], followed by the properties checked against them.

    Conventions of the embedding.
    - Python [int] is [Z].  Python [float] is an interface ([PyFloat]) with two
      instances: IEEE-754 binary64, as CPython has it (the standard
      library's [SpecFloat] at precision 53), and exact rationals, in
      which the algebra of the formulas can be read.
    - A Python [dict] is an association list in insertion order with
      distinct keys ([PyDict]); iteration order is insertion order.
    - An exception is an explicit outcome: [option] for a function that
      either returns or raises, [flow] inside loops that also [continue].
    - The file system, the clock, the time zone and [json.loads] are the
      environment's ([env], [line]): a line carries its text and what
      [json.loads] makes of it.
    - JSON numbers are integers (the logs carry integer counts), and a
      character of a string is one 8-bit character. *)

From Stdlib Require Import ZArith QArith Qround String Ascii List Bool Lia Lqa.
From Stdlib Require Import Permutation Sorted SpecFloat PrimFloat FloatOps.
Import ListNotations.

Set Implicit Arguments.
Set Warnings "-register-all".
Local Open Scope string_scope.
Local Open Scope Z_scope.

(** ** Python strings *)

Module PyStr.

(** [s.startswith(p)] *)
Definition startswith (s p : string) : bool := String.prefix p s.

(** [s[n:]] *)
Fixpoint drop (n : nat) (s : string) : string :=
  match n, s with
  | O, _ => s
  | S _, EmptyString => EmptyString
  | S k, String _ r => drop k r
  end.

(** [s[:n]] *)
Definition take (n : nat) (s : string) : string := String.substring 0 n s.

(** [s.replace(a, b)] for single characters *)
Fixpoint replace_char (a b : ascii) (s : string) : string :=
  match s with
  | EmptyString => EmptyString
  | String c r => String (if Ascii.eqb c a then b else c) (replace_char a b r)
  end.

(** [s.split(c)] with an explicit one-character separator: empty
    fields are kept and the empty string splits into one empty field. *)
Fixpoint split (c : ascii) (s : string) : list string :=
  match s with
  | EmptyString => [EmptyString]
  | String a r =>
      if Ascii.eqb a c then EmptyString :: split c r
      else match split c r with
           | h :: t => String a h :: t
           | [] => [String a EmptyString]
           end
  end.

(** [sep.join(l)] *)
Definition join (sep : string) (l : list string) : string := String.concat sep l.

(** [sub in s] *)
Fixpoint contains (sub s : string) : bool :=
  match s with
  | EmptyString => String.eqb sub EmptyString
  | String _ r => String.prefix sub s || contains sub r
  end.

(** The characters [str.strip] removes, among the 8-bit ones. *)
Definition is_space (a : ascii) : bool :=
  let n := nat_of_ascii a in
  ((9 <=? n) && (n <=? 13) || (28 <=? n) && (n <=? 32))%nat.

Fixpoint lstrip (s : string) : string :=
  match s with
  | EmptyString => EmptyString
  | String a r => if is_space a then lstrip r else s
  end.

Fixpoint rstrip (s : string) : string :=
  match s with
  | EmptyString => EmptyString
  | String a r =>
      match rstrip r with
      | EmptyString => if is_space a then EmptyString else String a EmptyString
      | r' => String a r'
      end
  end.

(** [s.strip()] *)
Definition strip (s : string) : string := rstrip (lstrip s).

Fixpoint remove_all_aux (sub : string) (skip : nat) (s : string) : string :=
  match s with
  | EmptyString => EmptyString
  | String a r =>
      match skip with
      | S k => remove_all_aux sub k r
      | O => if String.prefix sub s
             then remove_all_aux sub (String.length sub - 1) r
             else String a (remove_all_aux sub 0 r)
      end
  end.

(** [s.replace(sub, '')] for a non-empty [sub] *)
Definition remove_all (sub s : string) : string := remove_all_aux sub 0 s.

(** Truth value of a string. *)
Definition nonempty (s : string) : bool := negb (String.eqb s EmptyString).

End PyStr.

(** ** Python dictionaries, in insertion order *)

Module PyDict.

Definition dict (V : Type) : Type := list (string * V).

Fixpoint get {V} (d : dict V) (k : string) : option V :=
  match d with
  | [] => None
  | (k', v) :: r => if String.eqb k' k then Some v else get r k
  end.

(** [d.get(k, default)] *)
Definition get_or {V} (d : dict V) (k : string) (default : V) : V :=
  match get d k with Some v => v | None => default end.

(** [k in d] *)
Definition mem {V} (d : dict V) (k : string) : bool :=
  match get d k with Some _ => true | None => false end.

(** [d[k] = v]: an existing key keeps its place, a new one goes last. *)
Fixpoint set {V} (d : dict V) (k : string) (v : V) : dict V :=
  match d with
  | [] => [(k, v)]
  | (k', v') :: r => if String.eqb k' k then (k', v) :: r else (k', v') :: set r k v
  end.

Definition keys {V} (d : dict V) : list string := map fst d.
Definition values {V} (d : dict V) : list V := map snd d.

(** [{k: v for k, v in d.items() if p(v)}] *)
Definition filter_values {V} (p : V -> bool) (d : dict V) : dict V :=
  filter (fun kv => p (snd kv)) d.

End PyDict.

Import PyDict.

(** ** Python floats *)

(** The operations the program applies to floats.  [float_of_int] is the
  implicit conversion of an [int] operand; it raises [OverflowError]
  ([None]) when the integer is beyond the float range.  [float_lit] is
  the value of a decimal literal of the source text, [fround x n] is
  [round(x, n)]. *)
Class PyFloat (F : Type) : Type := {
float_of_int : Z -> option F;
float_lit : Q -> F;
fadd : F -> F -> F;
fmul : F -> F -> F;
fdiv : F -> F -> F;
fround : F -> nat -> F
}.

(** *** Exact rationals *)

Module Exact.

(** Round half to even at [n] decimals. *)
Definition round_half_even (q : Q) (n : nat) : Q :=
  let scale := 10 ^ Z.of_nat n in
  let s := (q * inject_Z scale)%Q in
  let fl := Qfloor s in
  let r := (s - inject_Z fl)%Q in
  let k := match Qcompare r (1 # 2) with
           | Lt => fl
           | Gt => fl + 1
           | Eq => if Z.even fl then fl else fl + 1
           end in
  (inject_Z k / inject_Z scale)%Q.

#[global] Instance exact_float : PyFloat Q := {|
  float_of_int := fun z => Some (inject_Z z);
  float_lit := fun q => q;
  fadd := Qplus;
  fmul := Qmult;
  fdiv := Qdiv;
  fround := round_half_even
|}.

End Exact.

(** *** IEEE-754 binary64 *)

Module Binary64.

Definition prec : Z := 53.
Definition emax : Z := 1024.

Definition b64_add : spec_float -> spec_float -> spec_float := SFadd prec emax.
Definition b64_mul : spec_float -> spec_float -> spec_float := SFmul prec emax.
Definition b64_div : spec_float -> spec_float -> spec_float := SFdiv prec emax.

(** An integer as an unrounded mantissa with exponent 0. *)
Definition raw (z : Z) : spec_float :=
  match z with
  | Z0 => S754_zero false
  | Zpos p => S754_finite false p 0
  | Zneg p => S754_finite true p 0
  end.

(** [float(z)]: the nearest double, ties to even; [OverflowError] when
    that would be an infinity. *)
Definition of_int (z : Z) : option spec_float :=
  match binary_normalize prec emax z 0 false with
  | S754_infinity _ => None
  | x => Some x
  end.

(** The double nearest to the rational [q]: one correctly rounded
    division of its numerator by its denominator. *)
Definition of_Q (q : Q) : spec_float :=
  b64_div (raw (Qnum q)) (raw (Zpos (Qden q))).

(** The exact value of a finite double. *)
Definition to_Q (x : spec_float) : Q :=
  match x with
  | S754_finite s m e =>
      let v := match e with
               | Zneg p => Zpos m # Pos.pow 2 p
               | _ => inject_Z (Zpos m * 2 ^ e)
               end in
      if s then Qopp v else v
  | _ => 0%Q
  end.

(** [round(x, n)]: the exact value rounded half to even at [n]
    decimals, then the nearest double; zeros, infinities and NaN are
    returned as they are, and a result that rounds to zero keeps the
    sign of [x]. *)
Definition round (x : spec_float) (n : nat) : spec_float :=
  match x with
  | S754_finite s _ _ =>
      let scale := 10 ^ Z.of_nat n in
      let r := Exact.round_half_even (to_Q x) n in
      let k := Qfloor (r * inject_Z scale)%Q in
      if k =? 0 then S754_zero s else b64_div (raw k) (raw scale)
  | _ => x
  end.

#[global] Instance binary64_float : PyFloat spec_float := {|
  float_of_int := of_int;
  float_lit := of_Q;
  fadd := b64_add;
  fmul := b64_mul;
  fdiv := b64_div;
  fround := round
|}.

(** Comparisons, for the statements: [x <= y] and [x < y] as Python
    evaluates them (false on NaN). *)
Definition leb (x y : spec_float) : bool := SFleb x y.
Definition ltb (x y : spec_float) : bool := SFltb x y.
Definition zero : spec_float := S754_zero false.

(** [+0.0], a positive finite number or [+inf]. *)
Definition sign_clear (x : spec_float) : bool :=
  match x with
  | S754_zero false | S754_finite false _ _ | S754_infinity false => true
  | _ => false
  end.

(** A positive finite number. *)
Definition finite_pos (x : spec_float) : bool :=
  match x with
  | S754_finite false _ _ => true
  | _ => false
  end.

End Binary64.

(** ** Pricing and cost *)

Section Cost.

Context {F : Type} `{PyFloat F}.

(** A rate card: dollars per million tokens. *)
Record rate_card : Type := {
  rate_input : F;
  rate_output : F;
  rate_cacheRead : F;
  rate_cacheWrite : F
}.

Definition card (i o r w : Q) : rate_card :=
  {| rate_input := float_lit i; rate_output := float_lit o;
     rate_cacheRead := float_lit r; rate_cacheWrite := float_lit w |}.

Definition MODEL_PRICING : dict rate_card :=
  [ ("MiniMax-M2.5",               card 0.30 1.20 0.03 0.30);
    ("MiniMax-M2.1",               card 0.30 1.20 0.03 0.30);
    ("k2p5",                       card 0.60 2.50 0.10 0.60);
    ("kimi-k2.5",                  card 0.60 2.50 0.10 0.60);
    ("glm-4.7",                    card 0.60 2.20 0.11 0.60);
    ("claude-opus-4-6",            card 15.00 75.00 1.50 15.00);
    ("claude-sonnet-4-6",          card 3.00 15.00 0.30 3.75);
    ("claude-sonnet-4-5-20250929", card 3.00 15.00 0.30 3.75);
    ("claude-3-5-sonnet-20241022", card 3.00 15.00 0.30 3.75);
    ("claude-3-5-haiku-20241022",  card 0.80 4.00 0.08 0.80);
    ("claude-haiku-4-5-20251001",  card 0.80 4.00 0.08 0.80) ].

Definition DEFAULT_PRICING : rate_card := card 1.00 5.00 0.10 1.00.

(** A usage tally as the program holds it: a dict with the four
    counters, to which [compute_usage] later adds ['estimatedCost']. *)
Record usage_dict : Type := {
  input : Z;
  output : Z;
  cacheRead : Z;
  cacheWrite : Z;
  estimatedCost : option F
}.

(** [{'input': 0, 'output': 0, 'cacheRead': 0, 'cacheWrite': 0}] *)
Definition empty_usage : usage_dict :=
  {| input := 0; output := 0; cacheRead := 0; cacheWrite := 0; estimatedCost := None |}.

(** [count * rate / 1_000_000], the integer operands converted on the way. *)
Definition per_million (count : Z) (rate : F) : option F :=
  match float_of_int count, float_of_int 1000000 with
  | Some c, Some million => Some (fdiv (fmul c rate) million)
  | _, _ => None
  end.

Definition net_input (usage : usage_dict) : Z :=
  Z.max 0 (input usage - cacheRead usage - cacheWrite usage).

Definition _cost (model : string) (usage : usage_dict) : option F :=
  let rates := get_or MODEL_PRICING model DEFAULT_PRICING in
  match per_million (net_input usage) (rate_input rates),
        per_million (output usage) (rate_output rates),
        per_million (cacheRead usage) (rate_cacheRead rates),
        per_million (cacheWrite usage) (rate_cacheWrite rates) with
  | Some a, Some b, Some c, Some d => Some (fadd (fadd (fadd a b) c) d)
  | _, _, _, _ => None
  end.

End Cost.

Arguments rate_card F : clear implicits.
Arguments usage_dict F : clear implicits.

(** ** JSON values, as [json.loads] returns them

    Numbers are the integers: the counters of the logs are integer
    counts, and a dict is the list of its items. *)

Inductive json : Type :=
| JNull
| JBool (b : bool)
| JInt (z : Z)
| JStr (s : string)
| JArr (items : list json)
| JObj (members : dict json).

Module Py.

(** Truth value of a Python object. *)
Definition truthy (v : json) : bool :=
  match v with
  | JNull => false
  | JBool b => b
  | JInt z => negb (z =? 0)
  | JStr s => PyStr.nonempty s
  | JArr items => match items with [] => false | _ => true end
  | JObj members => match members with [] => false | _ => true end
  end.

(** [isinstance(v, dict)] *)
Definition is_dict (v : json) : bool :=
  match v with JObj _ => true | _ => false end.

(** [d.get(key, default)]; [AttributeError] unless [d] is a dict. *)
Definition get (d : json) (key : string) (default : json) : option json :=
  match d with
  | JObj members => Some (get_or members key default)
  | _ => None
  end.

(** [v[:10]]; [TypeError] unless [v] is a string or a list. *)
Definition slice10 (v : json) : option json :=
  match v with
  | JStr s => Some (JStr (PyStr.take 10 s))
  | JArr items => Some (JArr (firstn 10 items))
  | _ => None
  end.

(** [v < s] for a string [s]; [TypeError] unless [v] is a string. *)
Definition lt_str (v : json) (s : string) : option bool :=
  match v with
  | JStr a => Some (String.ltb a s)
  | _ => None
  end.

(** [n + v] for an int [n]: [True] counts as 1, [False] as 0, any other
    non-integer is a [TypeError]. *)
Definition int_add (n : Z) (v : json) : option Z :=
  match v with
  | JInt z => Some (n + z)
  | JBool b => Some (n + (if b then 1 else 0))
  | _ => None
  end.

(** [v in ('user', 'assistant')] *)
Definition is_user_or_assistant (v : json) : bool :=
  match v with
  | JStr s => String.eqb s "user" || String.eqb s "assistant"
  | _ => false
  end.

(** [l[:n]] for an integer [n] of either sign. *)
Definition slice_to {A} (l : list A) (n : Z) : list A :=
  if 0 <=? n then firstn (Z.to_nat n) l
  else firstn (Z.to_nat (Z.of_nat (length l) + n)) l.

(** [l[i:j]] for [0 <= i <= j]. *)
Definition slice {A} (l : list A) (i j : nat) : list A :=
  firstn (j - i) (skipn i l).

(** [sorted(l, key=key, reverse=True)]: descending, and stable (equal
    keys keep their order). *)
Fixpoint insert_desc {A K} (ltb : K -> K -> bool) (key : A -> K) (x : A) (l : list A) : list A :=
  match l with
  | [] => [x]
  | y :: r => if ltb (key x) (key y) then y :: insert_desc ltb key x r else x :: l
  end.

Definition sorted_desc {A K} (ltb : K -> K -> bool) (key : A -> K) (l : list A) : list A :=
  fold_right (insert_desc ltb key) [] l.

(** [max(l, key=key)] over integers: the first maximal item. *)
Fixpoint max_by {A} (key : A -> Z) (best : A) (l : list A) : A :=
  match l with
  | [] => best
  | x :: r => if key best <? key x then max_by key x r else max_by key best r
  end.

End Py.

(** ** Control flow inside a loop body over a mutable state

    [Ok a]: the statement completed; [Continue]: the body executed
    [continue]; [Raise]: an exception left the body.  The state is kept
    in all three cases: what was mutated before an exception stays
    mutated. *)

Inductive flow (A : Type) : Type :=
| Ok (a : A)
| Continue
| Raise.

Arguments Continue {A}.
Arguments Raise {A}.

Definition M (S A : Type) : Type := S -> flow A * S.

Definition ret {S A} (a : A) : M S A := fun s => (Ok a, s).

Definition bind {S A B} (m : M S A) (k : A -> M S B) : M S B :=
  fun s => match m s with
           | (Ok a, s') => k a s'
           | (Continue, s') => (Continue, s')
           | (Raise, s') => (Raise, s')
           end.

Definition continue_ {S A} : M S A := fun s => (Continue, s).

Definition raise_ {S A} : M S A := fun s => (Raise, s).

(** A call that returns or raises. *)
Definition call {S A} (r : option A) : M S A :=
  match r with Some a => ret a | None => raise_ end.

(** An in-place update that returns or raises. *)
Definition update {S} (f : S -> option S) : M S unit :=
  fun s => match f s with Some s' => (Ok tt, s') | None => (Raise, s) end.

Declare Scope py_scope.
Delimit Scope py_scope with py.
Notation "x <- m ;; k" := (bind m (fun x => k))
  (at level 100, m at next level, right associativity) : py_scope.
Notation "m ;; k" := (bind m (fun _ => k))
  (at level 100, right associativity) : py_scope.
Notation "'when' c 'skip' ;; k" := (if c then continue_ else k)
  (at level 100, c at next level, right associativity) : py_scope.

(** [for x in xs: body(x)]: [continue] goes on with the next item, an
    exception leaves the loop. *)
Fixpoint for_each {S A} (body : A -> M S unit) (xs : list A) : M S unit :=
  match xs with
  | [] => ret tt
  | x :: r => fun s => match body x s with
                       | (Raise, s') => (Raise, s')
                       | (_, s') => for_each body r s'
                       end
  end.

(** ** Calendar

    A naive local [datetime] is the number of microseconds since
    0001-01-01T00:00:00. *)

Module PyTime.

Definition us_per_day : Z := 86400000000.

(** One past [datetime.max]: the end of year 9999. *)
Definition datetime_end : Z := 3652059 * us_per_day.

(** [timedelta(days=d)]; [OverflowError] beyond 999999999 days. *)
Definition timedelta_days (d : Z) : option Z :=
  if Z.abs d <=? 999999999 then Some (d * us_per_day) else None.

(** [dt - td]; [OverflowError] outside years 1..9999. *)
Definition sub (dt td : Z) : option Z :=
  let r := dt - td in
  if (0 <=? r) && (r <? datetime_end) then Some r else None.

(** Year, month and day of day number [d] (0 is 0001-01-01) in the
    proleptic Gregorian calendar. *)
Definition ymd_of_day (d : Z) : Z * Z * Z :=
  let z := d + 306 in
  let era := z / 146097 in
  let doe := z mod 146097 in
  let yoe := (doe - doe / 1460 + doe / 36524 - doe / 146096) / 365 in
  let doy := doe - (365 * yoe + yoe / 4 - yoe / 100) in
  let mp := (5 * doy + 2) / 153 in
  let day := doy - (153 * mp + 2) / 5 + 1 in
  let month := if mp <? 10 then mp + 3 else mp - 9 in
  let year := yoe + era * 400 + (if month <=? 2 then 1 else 0) in
  (year, month, day).

Definition digit (n : Z) : ascii := ascii_of_nat (48 + Z.to_nat (n mod 10)).

(** [n] in decimal, zero-padded to [width] digits. *)
Fixpoint digits (width : nat) (n : Z) (acc : string) : string :=
  match width with
  | O => acc
  | S w => digits w (n / 10) (String (digit n) acc)
  end.

(** [dt.strftime('%Y-%m-%d')] *)
Definition strftime_ymd (dt : Z) : string :=
  let '(y, m, d) := ymd_of_day (dt / us_per_day) in
  digits 4 y ("-" ++ digits 2 m ("-" ++ digits 2 d "")).

(** [dt.isoformat()] *)
Definition isoformat (dt : Z) : string :=
  let t := dt mod us_per_day in
  let us := t mod 1000000 in
  let sec := t / 1000000 in
  strftime_ymd dt ++ "T" ++ digits 2 (sec / 3600) (":" ++ digits 2 (sec / 60 mod 60)
    (":" ++ digits 2 (sec mod 60) (if us =? 0 then "" else "." ++ digits 6 us ""))).

End PyTime.

(** ** The environment: log tree, clock and home directory *)

(** What [json.loads] does with a line: a value, [JSONDecodeError], or
    another exception. *)
Inductive parse_result : Type :=
| Parsed (v : json)
| DecodeError
| OtherError.

(** A line of a session file with what [json.loads] makes of it. *)
Record line : Type := {
  l_text : string;
  l_json : parse_result
}.

(** A path matched by [glob('*.jsonl')] in a project folder. *)
Record session_file : Type := {
  f_name : string;                (* os.path.basename *)
  f_mtime : option Z;             (* os.path.getmtime, microseconds since the epoch; None: it raises *)
  f_lines : option (list line);   (* None: open raises *)
  f_broken : bool                 (* reading raises after the lines listed *)
}.

(** An entry of the root: a project folder with its matches, or not a directory. *)
Inductive node : Type :=
| NotDir
| Dir (files : list session_file).

Record env : Type := {
  home : string;                               (* os.path.expanduser('~') *)
  path_exists : string -> bool;                (* os.path.exists *)
  relpath : string -> string -> string;        (* os.path.relpath *)
  now : Z;                                     (* datetime.now() *)
  fromtimestamp : Z -> option Z;               (* datetime.fromtimestamp; None: it raises *)
  projects : option (list (string * node))    (* os.listdir of ~/.claude/projects; None: not a directory *)
}.

(** [datetime.now() - timedelta(days=days)] *)
Definition cutoff_of (e : env) (days : Z) : option Z :=
  match PyTime.timedelta_days days with
  | Some td => PyTime.sub (now e) td
  | None => None
  end.

(** ** Project folder decoder *)

(** [os.path.join(a, b)] on POSIX *)
Definition path_join (a b : string) : string :=
  if PyStr.startswith b "/" then b
  else if String.eqb a "" || PyStr.startswith (PyStr.drop (String.length a - 1) a) "/"
       then a ++ b
       else a ++ "/" ++ b.

(** The inner [for j in range(len(parts), i, -1)]: [j = i + k] down to
    [i + 1]; the first candidate that exists, with its [j]. *)
Fixpoint probe (e : env) (path : string) (parts : list string) (i k : nat) : option (string * nat) :=
  match k with
  | O => None
  | S k' =>
      let j := (i + k)%nat in
      let candidate := PyStr.join "-" (Py.slice parts i j) in
      let test_path := path_join path candidate in
      if path_exists e test_path then Some (test_path, j)
      else probe e path parts i k'
  end.

(** The [while i < len(parts)] loop and the return after it.  Each
    round advances [i], so [length parts] rounds are enough. *)
Fixpoint decode_loop (e : env) (folder_name : string) (parts : list string)
  (fuel : nat) (best path : string) (i : nat) : string :=
  if (i <? length parts)%nat then
    match fuel with
    | O => folder_name
    | S fuel' =>
        match probe e path parts i (length parts - i) with
        | Some (test_path, j) => decode_loop e folder_name parts fuel' test_path test_path j
        | None =>
            let remaining := PyStr.join "-" (Py.slice parts i (length parts)) in
            if negb (String.eqb path (home e))
            then "~/" ++ relpath e path (home e) ++ "/" ++ remaining
            else "~/" ++ remaining
        end
    end
  else if PyStr.nonempty best then "~/" ++ relpath e best (home e) else folder_name.

Definition home_encoded (e : env) : string :=
  "-" ++ PyStr.drop 1 (PyStr.replace_char "/" "-" (home e)).

Definition _decode_project_folder (e : env) (folder_name : string) : string :=
  if String.eqb folder_name (home_encoded e) then "~"
  else
    let prefix := home_encoded e ++ "-" in
    if PyStr.startswith folder_name prefix then
      let remainder := PyStr.drop (String.length prefix) folder_name in
      let parts := PyStr.split "-" remainder in
      decode_loop e folder_name parts (length parts) "" (home e) 0
    else folder_name.

(** ** What both scans share *)

(** A key between double quotes, as it stands in the text of a line. *)
Definition quoted (key : string) : string :=
  String (ascii_of_nat 34) (key ++ String (ascii_of_nat 34) "").

(** [entry.get('model') or msg.get('model', 'unknown')] *)
Definition record_model (entry msg : json) : option json :=
  match Py.get entry "model" JNull with
  | Some top => if Py.truthy top then Some top else Py.get msg "model" (JStr "unknown")
  | None => None
  end.

(** The string behind [model.startswith] and the dict keys; a model
    that is not a string raises [AttributeError]. *)
Definition as_str (v : json) : option string :=
  match v with JStr s => Some s | _ => None end.

Inductive counter : Type := c_input | c_output | c_cacheRead | c_cacheWrite.

(** The key of a counter in the usage object of a log record. *)
Definition log_key (c : counter) : string :=
  match c with
  | c_input => "input_tokens"
  | c_output => "output_tokens"
  | c_cacheRead => "cache_read_input_tokens"
  | c_cacheWrite => "cache_creation_input_tokens"
  end.

(** Python's numbers where an [int] and a [float] can both occur. *)
Inductive pynum (F : Type) : Type :=
| PyInt (z : Z)
| PyFlt (x : F).

Arguments PyInt {F} z.

Section Tallies.

Context {F : Type} `{PyFloat F}.

Definition counter_of (c : counter) (u : usage_dict F) : Z :=
  match c with
  | c_input => input u
  | c_output => output u
  | c_cacheRead => cacheRead u
  | c_cacheWrite => cacheWrite u
  end.

Definition set_counter (c : counter) (u : usage_dict F) (z : Z) : usage_dict F :=
  match c with
  | c_input => {| input := z; output := output u; cacheRead := cacheRead u;
                  cacheWrite := cacheWrite u; estimatedCost := estimatedCost u |}
  | c_output => {| input := input u; output := z; cacheRead := cacheRead u;
                   cacheWrite := cacheWrite u; estimatedCost := estimatedCost u |}
  | c_cacheRead => {| input := input u; output := output u; cacheRead := z;
                      cacheWrite := cacheWrite u; estimatedCost := estimatedCost u |}
  | c_cacheWrite => {| input := input u; output := output u; cacheRead := cacheRead u;
                       cacheWrite := z; estimatedCost := estimatedCost u |}
  end.

(** [usage['estimatedCost'] = x] *)
Definition set_cost (u : usage_dict F) (x : F) : usage_dict F :=
  {| input := input u; output := output u; cacheRead := cacheRead u;
     cacheWrite := cacheWrite u; estimatedCost := Some x |}.

(** [if model not in bucket: bucket[model] = {'input': 0, ...}] *)
Definition ensure (bucket : dict (usage_dict F)) (model : string) : dict (usage_dict F) :=
  if mem bucket model then bucket else set bucket model empty_usage.

(** [bucket[model][c] += usage.get(log_key, 0)]: [KeyError] without the
    bucket entry, [AttributeError] when [usage] is not a dict,
    [TypeError] when the value is not an integer. *)
Definition bump (bucket : dict (usage_dict F)) (model : string) (c : counter) (usage : json)
  : option (dict (usage_dict F)) :=
  match PyDict.get bucket model, Py.get usage (log_key c) (JInt 0) with
  | Some u, Some v =>
      match Py.int_add (counter_of c u) v with
      | Some z => Some (set bucket model (set_counter c u z))
      | None => None
      end
  | _, _ => None
  end.

(** [(u['input'] + u['output']) > 0] *)
Definition has_tokens (u : usage_dict F) : bool := 0 <? input u + output u.

(** [acc + x] where [x] is a float. *)
Definition py_add (acc : pynum F) (x : F) : option (pynum F) :=
  match acc with
  | PyInt z => match float_of_int z with Some a => Some (PyFlt (fadd a x)) | None => None end
  | PyFlt a => Some (PyFlt (fadd a x))
  end.

(** [sum(xs)] over floats: from the integer 0, left to right. *)
Fixpoint py_sum_from (acc : pynum F) (xs : list F) : option (pynum F) :=
  match xs with
  | [] => Some acc
  | x :: r => match py_add acc x with Some acc' => py_sum_from acc' r | None => None end
  end.

Definition py_sum (xs : list F) : option (pynum F) := py_sum_from (PyInt 0) xs.

(** [round(v, n)]: an integer is returned as it is. *)
Definition py_round (v : pynum F) (n : nat) : pynum F :=
  match v with
  | PyInt z => PyInt z
  | PyFlt x => PyFlt (fround x n)
  end.

(** [[f(x) for x in xs]] where [f] may raise. *)
Fixpoint map_call {A B} (f : A -> option B) (xs : list A) : option (list B) :=
  match xs with
  | [] => Some []
  | x :: r => match f x, map_call f r with
              | Some y, Some ys => Some (y :: ys)
              | _, _ => None
              end
  end.

End Tallies.

(** ** Usage aggregator *)

Module Day.
Record t (F : Type) : Type := {
  date : string;
  models : dict (usage_dict F);
  sessions : Z
}.
End Day.

Module UsageOut.
Record t (F : Type) : Type := {
  byModel : dict (usage_dict F);
  byDay : list (Day.t F);
  totalEstimatedCost : pynum F;
  totalSessions : Z;
  days : Z
}.
End UsageOut.

Module UsageQuery.

Section WithFloat.

Context {F : Type} `{PyFloat F}.

(** The three accumulators of the scan. *)
Record state : Type := {
  by_model : dict (usage_dict F);
  by_day : dict (dict (usage_dict F));
  sessions_by_day : dict Z
}.

Definition init : state := {| by_model := []; by_day := []; sessions_by_day := [] |}.

(** [sessions_by_day[day] = sessions_by_day.get(day, 0) + 1] *)
Definition count_session (day : string) (st : state) : state :=
  {| by_model := by_model st; by_day := by_day st;
     sessions_by_day := set (sessions_by_day st) day (get_or (sessions_by_day st) day 0 + 1) |}.

(** The [for bucket in (by_model, by_day.setdefault(day_str, {}))] loop. *)
Definition ensure_buckets (day_str model : string) (st : state) : option state :=
  let day_bucket := get_or (by_day st) day_str [] in
  Some {| by_model := ensure (by_model st) model;
          by_day := set (by_day st) day_str (ensure day_bucket model);
          sessions_by_day := sessions_by_day st |}.

(** [by_model[model][c] += usage.get(...)] *)
Definition bump_model (model : string) (c : counter) (usage : json) (st : state) : option state :=
  match bump (by_model st) model c usage with
  | Some d => Some {| by_model := d; by_day := by_day st; sessions_by_day := sessions_by_day st |}
  | None => None
  end.

(** [by_day[day_str][model][c] += usage.get(...)] *)
Definition bump_day (day_str model : string) (c : counter) (usage : json) (st : state) : option state :=
  match PyDict.get (by_day st) day_str with
  | Some bucket =>
      match bump bucket model c usage with
      | Some b => Some {| by_model := by_model st; by_day := set (by_day st) day_str b;
                          sessions_by_day := sessions_by_day st |}
      | None => None
      end
  | None => None
  end.

Local Open Scope py_scope.

(** The body of [for line in f]. *)
Definition line_body (cutoff_str session_day : string) (l : line) : M state unit :=
  let text := PyStr.strip (l_text l) in
  when negb (PyStr.nonempty text) || negb (PyStr.contains (quoted "usage") text) skip ;;
  match l_json l with
  | DecodeError => continue_
  | OtherError => raise_
  | Parsed entry =>
      ts <- call (Py.get entry "timestamp" (JStr "")) ;;
      old <- (if Py.truthy ts
              then call (match Py.slice10 ts with
                         | Some d => Py.lt_str d cutoff_str
                         | None => None
                         end)
              else ret false) ;;
      when old skip ;;
      msg <- call (Py.get entry "message" (JObj [])) ;;
      when negb (Py.is_dict msg) skip ;;
      usage <- call (Py.get msg "usage" JNull) ;;
      when negb (Py.truthy usage) skip ;;
      model_v <- call (record_model entry msg) ;;
      model <- call (as_str model_v) ;;
      when PyStr.startswith model "<" skip ;;
      day_str <- (if Py.truthy ts
                  then call (match Py.slice10 ts with
                             | Some d => as_str d
                             | None => None
                             end)
                  else ret session_day) ;;
      update (ensure_buckets day_str model) ;;
      update (bump_model model c_input usage) ;;
      update (bump_model model c_output usage) ;;
      update (bump_model model c_cacheRead usage) ;;
      update (bump_model model c_cacheWrite usage) ;;
      update (bump_day day_str model c_input usage) ;;
      update (bump_day day_str model c_output usage) ;;
      update (bump_day day_str model c_cacheRead usage) ;;
      update (bump_day day_str model c_cacheWrite usage)
  end.

(** The body of [for jsonl_file in glob(...)], with its
    [try ... except Exception: continue]: an exception ends the file and
    leaves the accumulators as they are by then. *)
Definition file_body (e : env) (cutoff : Z) (cutoff_str : string)
  (st : state) (f : session_file) : state :=
  match f_mtime f with
  | None => st
  | Some mtime =>
      match fromtimestamp e mtime with
      | None => st
      | Some dt =>
          if dt <? cutoff then st
          else
            let session_day := PyTime.strftime_ymd dt in
            let st1 := count_session session_day st in
            match f_lines f with
            | None => st1
            | Some ls => snd (for_each (line_body cutoff_str session_day) ls st1)
            end
      end
  end.

(** The body of [for project_folder in os.listdir(claude_dir)]. *)
Definition project_body (e : env) (cutoff : Z) (cutoff_str : string)
  (st : state) (entry : string * node) : state :=
  match snd entry with
  | NotDir => st
  | Dir files => fold_left (file_body e cutoff cutoff_str) files st
  end.

Definition scan (e : env) (cutoff : Z) (tree : list (string * node)) : state :=
  fold_left (project_body e cutoff (PyTime.strftime_ymd cutoff)) tree init.

(** [for model, usage in by_model.items():
       usage['estimatedCost'] = round(_cost(model, usage), 4)] *)
Fixpoint with_costs (d : dict (usage_dict F)) : option (dict (usage_dict F)) :=
  match d with
  | [] => Some []
  | (model, usage) :: r =>
      match _cost model usage, with_costs r with
      | Some c, Some r' => Some ((model, set_cost usage (fround c 4)) :: r')
      | _, _ => None
      end
  end.

(** One entry of the list comprehension that builds [by_day_list]. *)
Definition day_entry (st : state) (item : string * dict (usage_dict F)) : Day.t F :=
  {| Day.date := fst item;
     Day.models := filter_values has_tokens (snd item);
     Day.sessions := get_or (sessions_by_day st) (fst item) 0 |}.

(** [if models], on the bucket as accumulated. *)
Definition nonempty_bucket (item : string * dict (usage_dict F)) : bool :=
  match snd item with [] => false | _ => true end.

Definition by_day_list (st : state) : list (Day.t F) :=
  Py.sorted_desc String.ltb (@Day.date F)
    (map (day_entry st) (filter nonempty_bucket (by_day st))).

Definition compute_usage (e : env) (days : Z) : option (UsageOut.t F) :=
  match projects e with
  | None =>
      Some {| UsageOut.byModel := []; UsageOut.byDay := [];
              UsageOut.totalEstimatedCost := PyInt 0; UsageOut.totalSessions := 0;
              UsageOut.days := days |}
  | Some tree =>
      match cutoff_of e days with
      | None => None
      | Some cutoff =>
          let st := scan e cutoff tree in
          match with_costs (filter_values has_tokens (by_model st)) with
          | None => None
          | Some costed =>
              match map_call (@estimatedCost F) (values costed) with
              | None => None
              | Some costs =>
                  match py_sum costs with
                  | None => None
                  | Some total =>
                      Some {| UsageOut.byModel := costed;
                              UsageOut.byDay := by_day_list st;
                              UsageOut.totalEstimatedCost := py_round total 2;
                              UsageOut.totalSessions := fold_left Z.add (values (sessions_by_day st)) 0;
                              UsageOut.days := days |}
                  end
              end
          end
      end
  end.

End WithFloat.

End UsageQuery.

(** ** Session summarizer *)

Module SessionRow.
Record t (F : Type) : Type := {
  sessionId : string;
  project : string;
  date : json;
  primaryModel : string;
  totalInput : Z;
  totalOutput : Z;
  msgCount : Z;
  estimatedCost : pynum F;
  mtime : Z
}.
End SessionRow.

Module SessionsOut.
Record t (F : Type) : Type := {
  sessions : list (SessionRow.t F);
  total : Z;
  days : Z
}.
End SessionsOut.

Module SessionsQuery.

Section WithFloat.

Context {F : Type} `{PyFloat F}.

(** The locals of one file's scan; [None] is Python's [None]. *)
Record state : Type := {
  by_model : dict (usage_dict F);
  first_ts : option json;
  last_ts : option json;
  msg_count : Z
}.

Definition init : state :=
  {| by_model := []; first_ts := None; last_ts := None; msg_count := 0 |}.

(** [if not first_ts: first_ts = ts] and [last_ts = ts], for a true [ts]. *)
Definition see_timestamp (ts : json) (st : state) : option state :=
  Some {| by_model := by_model st;
          first_ts := match first_ts st with
                      | Some t => if Py.truthy t then Some t else Some ts
                      | None => Some ts
                      end;
          last_ts := Some ts;
          msg_count := msg_count st |}.

(** [msg_count += 1] *)
Definition count_message (st : state) : option state :=
  Some {| by_model := by_model st; first_ts := first_ts st; last_ts := last_ts st;
          msg_count := msg_count st + 1 |}.

Definition ensure_bucket (model : string) (st : state) : option state :=
  Some {| by_model := ensure (by_model st) model; first_ts := first_ts st;
          last_ts := last_ts st; msg_count := msg_count st |}.

Definition bump_model (model : string) (c : counter) (usage : json) (st : state) : option state :=
  match bump (by_model st) model c usage with
  | Some d => Some {| by_model := d; first_ts := first_ts st; last_ts := last_ts st;
                      msg_count := msg_count st |}
  | None => None
  end.

Local Open Scope py_scope.

(** The body of [for line in f]. *)
Definition line_body (l : line) : M state unit :=
  when negb (PyStr.nonempty (PyStr.strip (l_text l))) skip ;;
  let has_ts := PyStr.contains (quoted "timestamp") (l_text l) in
  let has_usage := PyStr.contains (quoted "usage") (l_text l) in
  let has_type := PyStr.contains (quoted "type") (l_text l) in
  when negb has_ts && negb has_usage && negb has_type skip ;;
  match l_json l with
  | DecodeError => continue_
  | OtherError => raise_
  | Parsed entry =>
      (if has_ts
       then ts <- call (Py.get entry "timestamp" (JStr "")) ;;
            if Py.truthy ts then update (see_timestamp ts) else ret tt
       else ret tt) ;;
      (if has_type
       then ty <- call (Py.get entry "type" JNull) ;;
            if Py.is_user_or_assistant ty then update count_message else ret tt
       else ret tt) ;;
      when negb has_usage skip ;;
      msg <- call (Py.get entry "message" (JObj [])) ;;
      when negb (Py.is_dict msg) skip ;;
      usage <- call (Py.get msg "usage" JNull) ;;
      when negb (Py.truthy usage) skip ;;
      model_v <- call (record_model entry msg) ;;
      model <- call (as_str model_v) ;;
      when PyStr.startswith model "<" skip ;;
      update (ensure_bucket model) ;;
      update (bump_model model c_input usage) ;;
      update (bump_model model c_output usage) ;;
      update (bump_model model c_cacheRead usage) ;;
      update (bump_model model c_cacheWrite usage)
  end.

(** [last_ts or first_ts or datetime.fromtimestamp(mtime).isoformat()] *)
Definition date_source (st : state) (dt : Z) : json :=
  match last_ts st with
  | Some t => t
  | None => match first_ts st with
            | Some t => t
            | None => JStr (PyTime.isoformat dt)
            end
  end.

(** What follows the scan of a file whose lines were all read: the row
    to append, or [None] when the file is dropped ([continue], or an
    exception in the sums or in the date). *)
Definition summarize (project_display : string) (f : session_file) (mtime dt : Z)
  (st : state) : option (SessionRow.t F) :=
  let kept := filter_values has_tokens (by_model st) in
  match kept with
  | [] => None
  | (m0, _) :: rest =>
      match map_call (fun kv => _cost (fst kv) (snd kv)) kept with
      | None => None
      | Some costs =>
          match py_sum costs, Py.slice10 (date_source st dt) with
          | Some total_cost, Some day =>
              Some {| SessionRow.sessionId := PyStr.remove_all ".jsonl" (f_name f);
                      SessionRow.project := project_display;
                      SessionRow.date := day;
                      SessionRow.primaryModel :=
                        Py.max_by (fun m => match PyDict.get kept m with
                                            | Some u => input u + output u
                                            | None => 0
                                            end) m0 (keys rest);
                      SessionRow.totalInput := fold_left Z.add (map (@input F) (values kept)) 0;
                      SessionRow.totalOutput := fold_left Z.add (map (@output F) (values kept)) 0;
                      SessionRow.msgCount := msg_count st;
                      SessionRow.estimatedCost := py_round total_cost 4;
                      SessionRow.mtime := mtime |}
          | _, _ => None
          end
      end
  end.

(** The body of [for jsonl_file in glob(...)] with its
    [try ... except Exception: continue]: the rows the file appends. *)
Definition file_rows (e : env) (cutoff : Z) (project_display : string)
  (f : session_file) : list (SessionRow.t F) :=
  match f_mtime f with
  | None => []
  | Some mtime =>
      match fromtimestamp e mtime with
      | None => []
      | Some dt =>
          if dt <? cutoff then []
          else
            match f_lines f with
            | None => []
            | Some ls =>
                match for_each line_body ls init with
                | (Raise, _) => []
                | (_, st) =>
                    if f_broken f then []
                    else match summarize project_display f mtime dt st with
                         | Some row => [row]
                         | None => []
                         end
                end
            end
      end
  end.

(** The body of [for project_folder in os.listdir(claude_dir)]. *)
Definition project_rows (e : env) (cutoff : Z) (entry : string * node) : list (SessionRow.t F) :=
  match snd entry with
  | NotDir => []
  | Dir files =>
      let project_display := _decode_project_folder e (fst entry) in
      flat_map (file_rows e cutoff project_display) files
  end.

(** The list [sessions] when the scan ends, in order of appending. *)
Definition collect (e : env) (cutoff : Z) (tree : list (string * node)) : list (SessionRow.t F) :=
  flat_map (project_rows e cutoff) tree.

Definition compute_sessions (e : env) (days limit : Z) : option (SessionsOut.t F) :=
  match projects e with
  | None => Some {| SessionsOut.sessions := []; SessionsOut.total := 0; SessionsOut.days := days |}
  | Some tree =>
      match cutoff_of e days with
      | None => None
      | Some cutoff =>
          let sessions := Py.sorted_desc Z.ltb (@SessionRow.mtime F) (collect e cutoff tree) in
          Some {| SessionsOut.sessions := Py.slice_to sessions limit;
                  SessionsOut.total := Z.of_nat (length sessions);
                  SessionsOut.days := days |}
      end
  end.

End WithFloat.

End SessionsQuery.

(** ** The rate cards, for the statements *)

(** The card [_cost] uses for a model. *)
Definition rates_of {F} `{PyFloat F} (model : string) : rate_card F :=
  get_or MODEL_PRICING model DEFAULT_PRICING.

(** Every rate is a non-negative amount, and caching a token is never
    cheaper to write than to send. *)
Definition exact_card_ok (r : rate_card Q) : Prop :=
  (0 <= rate_input r /\ 0 <= rate_output r /\ 0 <= rate_cacheRead r
   /\ 0 <= rate_cacheWrite r /\ rate_input r <= rate_cacheWrite r)%Q.

Definition b64_card_ok (r : rate_card spec_float) : Prop :=
  Binary64.finite_pos (rate_input r) = true /\ Binary64.finite_pos (rate_output r) = true
  /\ Binary64.finite_pos (rate_cacheRead r) = true /\ Binary64.finite_pos (rate_cacheWrite r) = true.

(** [{'input': i, 'output': o, 'cacheRead': r, 'cacheWrite': w}] *)
Definition tally {F} (i o r w : Z) : usage_dict F :=
  {| input := i; output := o; cacheRead := r; cacheWrite := w; estimatedCost := None |}.


(** ** Trees and sample inputs, for the statements *)

(** The environment with another log tree. *)
Definition with_projects (e : env) (tree : option (list (string * node))) : env :=
  {| home := home e; path_exists := path_exists e; relpath := relpath e; now := now e;
     fromtimestamp := fromtimestamp e; projects := tree |}.


(** The text of a line, written with an apostrophe for each double quote. *)
Definition text (s : string) : string :=
  PyStr.replace_char "'" (ascii_of_nat 34) s.

(** A readable session file. *)
Definition readable (name : string) (mtime : Z) (ls : list line) : session_file :=
  {| f_name := name; f_mtime := Some mtime; f_lines := Some ls; f_broken := false |}.

(** 1970-01-01T00:00:00 as a datetime, and days as microseconds. *)
Definition epoch : Z := 719162 * PyTime.us_per_day.
Definition day_us (d : Z) : Z := d * PyTime.us_per_day.

(** A machine in UTC whose clock shows 2026-11-04T12:00:00 (day 20761
    of the epoch), with home [/home/asus] and nothing else on disk. *)
Definition sample_env (tree : option (list (string * node))) : env :=
  {| home := "/home/asus";
     path_exists := fun _ => false;
     relpath := fun p _ => p;
     now := epoch + day_us 20761 + 43200000000;
     fromtimestamp := fun t => Some (epoch + t);
     projects := tree |}.

(** A usage record of 2026-01-01, ten months before the sample clock. *)
Definition stale_record : line :=
  {| l_text := text "{'timestamp':'2026-01-01T10:00:00Z','model':'m','type':'assistant','message':{'usage':{'input_tokens':7,'output_tokens':3}}}";
     l_json := Parsed (JObj [("timestamp", JStr "2026-01-01T10:00:00Z"); ("model", JStr "m");
                             ("type", JStr "assistant");
                             ("message", JObj [("usage", JObj [("input_tokens", JInt 7);
                                                               ("output_tokens", JInt 3)])])]) |}.

(** A usage record of 2026-11-02 that only reports cached tokens. *)
Definition cache_only_record : line :=
  {| l_text := text "{'timestamp':'2026-11-02T10:00:00Z','model':'m','message':{'usage':{'cache_read_input_tokens':5}}}";
     l_json := Parsed (JObj [("timestamp", JStr "2026-11-02T10:00:00Z"); ("model", JStr "m");
                             ("message", JObj [("usage", JObj [("cache_read_input_tokens", JInt 5)])])]) |}.

(** A usage record of 2026-11-03 whose two model fields differ. *)
Definition sonnet_usage : dict json :=
  [("input_tokens", JInt 100000); ("output_tokens", JInt 50000);
   ("cache_read_input_tokens", JInt 10000); ("cache_creation_input_tokens", JInt 5000)].

Definition sonnet_message : dict json :=
  [("model", JStr "other"); ("usage", JObj sonnet_usage)].

Definition sonnet_entry : dict json :=
  [("timestamp", JStr "2026-11-03T10:00:00Z"); ("model", JStr "claude-sonnet-4-6");
   ("type", JStr "assistant"); ("message", JObj sonnet_message)].

Definition sonnet_record : line :=
  {| l_text := text "{'timestamp':'2026-11-03T10:00:00Z','model':'claude-sonnet-4-6','type':'assistant','message':{'model':'other','usage':{'input_tokens':100000,'output_tokens':50000,'cache_read_input_tokens':10000,'cache_creation_input_tokens':5000}}}";
     l_json := Parsed (JObj sonnet_entry) |}.

(** One project folder holding one session file, modified on 2026-11-03. *)
Definition one_file_tree (l : line) : list (string * node) :=
  [("-home-asus-proj", Dir [readable "s1.jsonl" (day_us 20760) [l]])].

(** The same project folder without the file. *)
Definition no_file_tree : list (string * node) := [("-home-asus-proj", Dir [])].

(** The cutoff of a 7-day window on the sample clock: 2026-10-28T12:00:00. *)
Definition sample_cutoff : Z := epoch + day_us 20754 + 43200000000.

(** Two session files in one project folder, the older one listed first. *)
Definition two_file_tree : list (string * node) :=
  [("-home-asus-proj", Dir [readable "s1.jsonl" (day_us 20759) [stale_record];
                            readable "s2.jsonl" (day_us 20760) [sonnet_record]])].

(** The outputs of both queries when there is nothing to report. *)
Definition empty_usage_output {F} (days : Z) : UsageOut.t F :=
  {| UsageOut.byModel := []; UsageOut.byDay := []; UsageOut.totalEstimatedCost := PyInt 0;
     UsageOut.totalSessions := 0; UsageOut.days := days |}.

Definition empty_sessions_output {F} (days : Z) : SessionsOut.t F :=
  {| SessionsOut.sessions := []; SessionsOut.total := 0; SessionsOut.days := days |}.

(** ** Predicates on accumulators and records, for the statements *)

(** No tally of the dict has an ['estimatedCost'] key. *)
Definition bare_dict {F} (d : dict (usage_dict F)) : Prop :=
  Forall (fun kv => estimatedCost (snd kv) = None) d.

Definition bare_state {F} (st : @UsageQuery.state F) : Prop :=
  bare_dict (UsageQuery.by_model st)
  /\ Forall (fun kv => bare_dict (snd kv)) (UsageQuery.by_day st).

(** A statement keeps an invariant of the state, however it ends. *)
Definition preserves {S A} (I : S -> Prop) (m : M S A) : Prop :=
  forall s, I s -> I (snd (m s)).

(** The usage object holds an integer under each counter key it has. *)
Definition integer_counters (um : dict json) : Prop :=
  forall c, exists z, get_or um (log_key c) (JInt 0) = JInt z.


(** A line that both scans read as a usage record: its text has the
    usage marker, it parses to an object [em] whose message [mm] carries
    a non-empty usage object [um] of integer counters. *)
Definition usage_record (l : line) (em mm um : dict json) : Prop :=
  PyStr.nonempty (PyStr.strip (l_text l)) = true
  /\ PyStr.contains (quoted "usage") (PyStr.strip (l_text l)) = true
  /\ PyStr.contains (quoted "usage") (l_text l) = true
  /\ l_json l = Parsed (JObj em)
  /\ PyDict.get em "message" = Some (JObj mm)
  /\ PyDict.get mm "usage" = Some (JObj um)
  /\ um <> []
  /\ integer_counters um.

(** The tally a bucket holds for a model, zero when it has none. *)
Definition tally_of {F} (bucket : dict (usage_dict F)) (model : string) : usage_dict F :=
  get_or bucket model empty_usage.


(** A session file last modified before the cutoff. *)
Definition modified_before (e : env) (cutoff : Z) (f : session_file) : Prop :=
  exists mtime dt, f_mtime f = Some mtime /\ fromtimestamp e mtime = Some dt /\ dt < cutoff.

(** A tree around one session file, and the same tree without it. *)
Definition tree_with (pre : list (string * node)) (name : string)
  (before : list session_file) (f : session_file) (after : list session_file)
  (post : list (string * node)) : list (string * node) :=
  pre ++ (name, Dir (before ++ f :: after)) :: post.

Definition tree_without (pre : list (string * node)) (name : string)
  (before after : list session_file) (post : list (string * node)) : list (string * node) :=
  pre ++ (name, Dir (before ++ after)) :: post.

(** A readable session file modified in April 2025, outside the sample window. *)
Definition stale_file : session_file := readable "s0.jsonl" (day_us 20200) [sonnet_record].

(** The session rows the scan collects, in order of appending; none
    when the root directory is missing. *)
Definition matching_sessions {F} `{PyFloat F} (e : env) (cutoff : Z) : list (SessionRow.t F) :=
  match projects e with
  | Some tree => SessionsQuery.collect e cutoff tree
  | None => []
  end.

(** ** Tallies, files and lines, for the statements on the whole scans *)



(** The session files of a tree, in the order of the scan. *)
Definition session_files (tree : list (string * node)) : list session_file :=
  flat_map (fun entry => match snd entry with Dir files => files | NotDir => [] end) tree.

(** The modification time of the file can be read and is not before
    the cutoff. *)
Definition in_window (e : env) (cutoff : Z) (f : session_file) : bool :=
  match f_mtime f with
  | Some mtime => match fromtimestamp e mtime with
                  | Some dt => negb (dt <? cutoff)
                  | None => false
                  end
  | None => false
  end.

(** The tallies of a session file once all its lines are read: by
    model, those with tokens. *)
Definition session_tallies {F} `{PyFloat F} (f : session_file) : dict (usage_dict F) :=
  match f_lines f with
  | Some ls =>
      filter_values has_tokens
        (SessionsQuery.by_model (snd (for_each SessionsQuery.line_body ls SessionsQuery.init)))
  | None => []
  end.

(** The sum of the per-day session counts of the usage scan. *)
Definition counted {F} (st : @UsageQuery.state F) : Z :=
  fold_left Z.add (values (UsageQuery.sessions_by_day st)) 0.

(** No day is the key of two buckets. *)
Definition distinct_days {F} (st : @UsageQuery.state F) : Prop :=
  NoDup (keys (UsageQuery.by_day st)).

(** A line that parses to something other than an object: a list, a
    string, a number, [true], [false] or [null]. *)
Definition not_an_object (l : line) : Prop :=
  exists v, l_json l = Parsed v /\ Py.is_dict v = false.

(** The file with other lines. *)
Definition with_lines (f : session_file) (ls : list line) : session_file :=
  {| f_name := f_name f; f_mtime := f_mtime f; f_lines := Some ls; f_broken := f_broken f |}.

(** A line holding a JSON list. *)
Definition array_line : line :=
  {| l_text := text "['usage', 'timestamp']";
     l_json := Parsed (JArr [JStr "usage"; JStr "timestamp"]) |}.

(** A usage record of 2026-11-03 under a synthetic model name. *)
Definition synthetic_usage : dict json := [("input_tokens", JInt 9); ("output_tokens", JInt 4)].

Definition synthetic_message : dict json :=
  [("model", JStr "<synthetic>"); ("usage", JObj synthetic_usage)].

Definition synthetic_entry : dict json :=
  [("timestamp", JStr "2026-11-03T10:00:00Z"); ("type", JStr "assistant");
   ("message", JObj synthetic_message)].

Definition synthetic_record : line :=
  {| l_text := text "{'timestamp':'2026-11-03T10:00:00Z','type':'assistant','message':{'model':'<synthetic>','usage':{'input_tokens':9,'output_tokens':4}}}";
     l_json := Parsed (JObj synthetic_entry) |}.

(** Two session files of one project folder with the same modification time. *)
Definition tied_tree : list (string * node) :=
  [("-home-asus-proj", Dir [readable "a.jsonl" (day_us 20760) [sonnet_record];
                            readable "b.jsonl" (day_us 20760) [sonnet_record]])].

(** One session file with records of two days of the window. *)
Definition two_day_tree : list (string * node) :=
  [("-home-asus-proj", Dir [readable "s1.jsonl" (day_us 20760) [cache_only_record; sonnet_record]])].

(** The sample machine with the listed paths on disk and no log tree;
    [relpath] is the path below the start directory. *)
Definition sample_disk (dirs : list string) : env :=
  {| home := "/home/asus";
     path_exists := fun p => existsb (String.eqb p) dirs;
     relpath := fun p start => PyStr.drop (S (String.length start)) p;
     now := epoch + day_us 20761 + 43200000000;
     fromtimestamp := fun t => Some (epoch + t);
     projects := None |}.

(** A usage record whose input count is the integer [n] and whose
    output count is a string. *)
Definition garbled_record (l : line) (em mm um : dict json) (n : Z) : Prop :=
  PyStr.nonempty (PyStr.strip (l_text l)) = true
  /\ PyStr.contains (quoted "usage") (PyStr.strip (l_text l)) = true
  /\ l_json l = Parsed (JObj em)
  /\ PyDict.get em "message" = Some (JObj mm)
  /\ PyDict.get mm "usage" = Some (JObj um)
  /\ PyDict.get um "input_tokens" = Some (JInt n)
  /\ exists s, PyDict.get um "output_tokens" = Some (JStr s).

(** Such a record, of 2026-11-03. *)
Definition garbled_usage : dict json := [("input_tokens", JInt 7); ("output_tokens", JStr "many")].

Definition garbled_message : dict json := [("usage", JObj garbled_usage)].

Definition garbled_entry : dict json :=
  [("timestamp", JStr "2026-11-03T10:00:00Z"); ("model", JStr "m"); ("message", JObj garbled_message)].

Definition garbled_line : line :=
  {| l_text := text "{'timestamp':'2026-11-03T10:00:00Z','model':'m','message':{'usage':{'input_tokens':7,'output_tokens':'many'}}}";
     l_json := Parsed (JObj garbled_entry) |}.

(** * Properties *)

Unset Implicit Arguments.
(** ** Dictionaries *)

Lemma get_or_cases {V} (d : dict V) k (def : V) :
  get_or d k def = def \/ In (get_or d k def) (values d).
Proof.
  unfold get_or. induction d as [|[k' v] r IH]; simpl; auto.
  destruct (String.eqb k' k); auto. destruct IH; auto.
Qed.

(** ** The pricing table *)

Lemma exact_cards_ok model : exact_card_ok (rates_of model).
Proof.
  assert (A : Forall exact_card_ok (DEFAULT_PRICING :: values (MODEL_PRICING (F := Q)))).
  { repeat constructor; vm_compute; discriminate. }
  rewrite Forall_forall in A. apply A. unfold rates_of.
  destruct (get_or_cases (MODEL_PRICING (F := Q)) model DEFAULT_PRICING) as [E|E].
  - rewrite E. left. reflexivity.
  - right. exact E.
Qed.

Lemma b64_cards_ok model : b64_card_ok (rates_of model).
Proof.
  assert (A : Forall b64_card_ok (DEFAULT_PRICING :: values (MODEL_PRICING (F := spec_float)))).
  { repeat constructor; vm_compute; reflexivity. }
  rewrite Forall_forall in A. apply A. unfold rates_of.
  destruct (get_or_cases (MODEL_PRICING (F := spec_float)) model DEFAULT_PRICING) as [E|E].
  - rewrite E. left. reflexivity.
  - right. exact E.
Qed.

(** ** Cost in exact arithmetic *)

Lemma cost_exact_unfold model (u : usage_dict Q) :
  _cost model u =
  Some (inject_Z (net_input u) * rate_input (rates_of model) / inject_Z 1000000
        + inject_Z (output u) * rate_output (rates_of model) / inject_Z 1000000
        + inject_Z (cacheRead u) * rate_cacheRead (rates_of model) / inject_Z 1000000
        + inject_Z (cacheWrite u) * rate_cacheWrite (rates_of model) / inject_Z 1000000)%Q.
Proof. reflexivity. Qed.

Lemma inject_Z_le a b : a <= b -> (inject_Z a <= inject_Z b)%Q.
Proof. intros. rewrite <- Zle_Qle. assumption. Qed.


Lemma sum_per_million (a b c d : Q) :
  (a / inject_Z 1000000 + b / inject_Z 1000000 + c / inject_Z 1000000 + d / inject_Z 1000000
   == (a + b + c + d) / inject_Z 1000000)%Q.
Proof. field. Qed.


(** C1, as amended: evaluated in exact arithmetic, for every model
    identifier and every usage tally the cost function returns
    [(max(0, input - cacheRead - cacheWrite) * rate.input + output *
    rate.output + cacheRead * rate.cacheRead + cacheWrite *
    rate.cacheWrite) / 1,000,000] using the model's rate card (the
    default card when the model is not in the pricing table), and the
    tally [{input:100000, output:50000, cacheRead:10000,
    cacheWrite:5000}] under the card [{3.00, 15.00, 0.30, 3.75}] costs
    1.02675.  Evaluated in binary64 floating point, as the program runs,
    the same tally costs 4624070917402656 * 2^-52 (printed
    1.0267499999999998): within 10^-15 of 1.02675, not exactly 1.02675. *)
Theorem cost_formula :
  (forall model (u : usage_dict Q),
      exists c, _cost model u = Some c /\
        (c == (inject_Z (Z.max 0 (input u - cacheRead u - cacheWrite u)) * rate_input (rates_of model)
               + inject_Z (output u) * rate_output (rates_of model)
               + inject_Z (cacheRead u) * rate_cacheRead (rates_of model)
               + inject_Z (cacheWrite u) * rate_cacheWrite (rates_of model)) / 1000000)%Q)
  /\ (forall model, PyDict.get (MODEL_PRICING (F := Q)) model = None ->
                    rates_of (F := Q) model = DEFAULT_PRICING)
  /\ rates_of (F := Q) "claude-sonnet-4-6" = card 3.00 15.00 0.30 3.75
  /\ (exists c, _cost (F := Q) "claude-sonnet-4-6" (tally 100000 50000 10000 5000) = Some c
                /\ (c == 1.02675)%Q)
  /\ (exists x, _cost (F := spec_float) "claude-sonnet-4-6" (tally 100000 50000 10000 5000) = Some x
                /\ x = S754_finite false 4624070917402656 (-52)
                /\ (Binary64.to_Q x < 1.02675)%Q
                /\ (1.02675 - Binary64.to_Q x < 1 # 1000000000000000)%Q).
Proof.
  split; [|split; [|split; [|split]]].
  - intros model u. eexists. split; [apply cost_exact_unfold|].
    unfold net_input. rewrite sum_per_million. reflexivity.
  - intros model E. unfold rates_of, get_or. rewrite E. reflexivity.
  - reflexivity.
  - eexists. split; [apply cost_exact_unfold|]. vm_compute. reflexivity.
  - eexists. split; [vm_compute; reflexivity|].
    split; [reflexivity|]. split; vm_compute; reflexivity.
Qed.

(** C1, as stated, fails on the scenario: the value the program returns
    is not the double written 1.02675, and no double equals 1.02675. *)
Lemma cost_scenario_not_exact :
  _cost (F := spec_float) "claude-sonnet-4-6" (tally 100000 50000 10000 5000)
    <> Some (float_lit 1.02675%Q)
  /\ ~ (exists x, _cost (F := spec_float) "claude-sonnet-4-6" (tally 100000 50000 10000 5000) = Some x
                  /\ (Binary64.to_Q x == 1.02675)%Q).
Proof.
  split.
  - vm_compute. discriminate.
  - intros [x [E V]]. vm_compute in E. inversion E; subst x. vm_compute in V. discriminate.
Qed.

(** The same sum on the machine's own binary64 numbers (the kernel's
    primitive floats) gives the value the model computes. *)
Remark cost_scenario_on_primitive_floats :
  _cost (F := spec_float) "claude-sonnet-4-6" (tally 100000 50000 10000 5000)
  = Some (Prim2SF (85000 * 3 / 1000000 + 50000 * 15 / 1000000
                   + 10000 * (30 / 100) / 1000000 + 5000 * (375 / 100) / 1000000)%float).
Proof. vm_compute. reflexivity. Qed.



(** Why the monotonicity above is stated in exact arithmetic: on the
    default card, where a cache-write token costs what an input token
    costs, binary64 rounding makes the cost dip by one unit in the last
    place when the eleventh of 301 input tokens is written to the cache. *)
Remark cost_dips_in_binary64_as_cacheWrite_grows :
  exists a b,
    _cost (F := spec_float) "some-unlisted-model" (tally 301 0 0 10) = Some a
    /\ _cost (F := spec_float) "some-unlisted-model" (tally 301 0 0 11) = Some b
    /\ Binary64.ltb b a = true.
Proof.
  do 2 eexists. split; [vm_compute; reflexivity|]. split; [vm_compute; reflexivity|].
  vm_compute. reflexivity.
Qed.

(** ** Binary64: signs and range *)

Lemma iter_pos_invariant {A} (P : A -> Prop) (f : A -> A) :
  (forall x, P x -> P (f x)) -> forall p x, P x -> P (iter_pos f p x).
Proof.
  intros Hf p. induction p as [p IH|p IH|]; intros x Hx; simpl; auto.
Qed.

Lemma shr_1_nonneg mrs : 0 <= shr_m mrs -> 0 <= shr_m (shr_1 mrs).
Proof.
  destruct mrs as [m r s]. simpl. intros Hm.
  destruct m as [|p|p]; [simpl; lia| |lia].
  destruct p; simpl; lia.
Qed.

Lemma shr_nonneg mrs e n : 0 <= shr_m mrs -> 0 <= shr_m (fst (shr mrs e n)).
Proof.
  intros Hm. destruct n; simpl; auto.
  apply iter_pos_invariant with (P := fun x => 0 <= shr_m x); auto using shr_1_nonneg.
Qed.

Lemma shr_fexp_nonneg p em m e l : 0 <= m -> 0 <= shr_m (fst (shr_fexp p em m e l)).
Proof.
  intros Hm. unfold shr_fexp. apply shr_nonneg.
  destruct l as [|[]]; simpl; auto.
Qed.

Lemma round_nearest_even_nonneg m l : 0 <= m -> 0 <= round_nearest_even m l.
Proof.
  intros Hm. destruct l as [|[]]; simpl; try lia.
  destruct (Z.even m); lia.
Qed.


Lemma digits2_size p : digits2_pos p = Pos.size p.
Proof. induction p; simpl; congruence. Qed.

Lemma digits2_bound p : Z.pos p < 2 ^ Z.pos (digits2_pos p).
Proof.
  rewrite digits2_size. pose proof (Pos.size_gt p) as G.
  apply Pos2Z.pos_lt_pos in G. rewrite Pos2Z.inj_pow in G. exact G.
Qed.

Lemma digits2_le p k : 0 <= k -> Z.pos p < 2 ^ k -> Z.pos (digits2_pos p) <= k.
Proof.
  intros Hk Hp. rewrite digits2_size.
  destruct (Z_le_gt_dec (Z.pos (Pos.size p)) k) as [L|G]; auto. exfalso.
  pose proof (Pos.size_le p) as S.
  assert (2 ^ Z.pos (Pos.size p) <= Z.pos p~0).
  { apply Pos2Z.pos_le_pos in S. rewrite Pos2Z.inj_pow in S. exact S. }
  assert (2 ^ (k + 1) <= 2 ^ Z.pos (Pos.size p)) by (apply Z.pow_le_mono_r; lia).
  rewrite Z.pow_add_r in H0 by lia. lia.
Qed.

Lemma iter_pos_nat {A} (f : A -> A) p x : iter_pos f p x = Nat.iter (Pos.to_nat p) f x.
Proof.
  revert x. induction p as [p IH|p IH|]; intros x.
  - rewrite Pos2Nat.inj_xI. cbn [iter_pos]. rewrite !IH.
    replace (S (2 * Pos.to_nat p)) with (Pos.to_nat p + S (Pos.to_nat p))%nat by lia.
    rewrite Nat.iter_add, Nat.iter_succ_r. reflexivity.
  - rewrite Pos2Nat.inj_xO. cbn [iter_pos]. rewrite !IH.
    replace (2 * Pos.to_nat p)%nat with (Pos.to_nat p + Pos.to_nat p)%nat by lia.
    rewrite Nat.iter_add. reflexivity.
  - reflexivity.
Qed.

Lemma shr_1_div2 mrs : 0 <= shr_m mrs -> shr_m (shr_1 mrs) = shr_m mrs / 2.
Proof.
  destruct mrs as [m r s]. simpl. intros Hm.
  destruct m as [|p|p]; [reflexivity| |lia].
  destruct p; simpl.
  - apply Z.div_unique with 1; lia.
  - apply Z.div_unique with 0; lia.
  - reflexivity.
Qed.

Lemma shr_iter_div n mrs :
  0 <= shr_m mrs -> 0 <= shr_m (Nat.iter n shr_1 mrs) /\ shr_m (Nat.iter n shr_1 mrs) = shr_m mrs / 2 ^ Z.of_nat n.
Proof.
  intros Hm. induction n as [|n [IH1 IH2]].
  - simpl. rewrite Z.div_1_r. auto.
  - rewrite Nat.iter_succ. rewrite shr_1_div2 by assumption. rewrite IH2.
    split.
    + apply Z.div_pos; [|lia]. apply Z.div_pos; lia.
    + rewrite Nat2Z.inj_succ, Z.pow_succ_r by lia. rewrite Z.div_div by lia. f_equal. lia.
Qed.

Lemma Zdigits2_le m k : 0 <= m -> 0 <= k -> m < 2 ^ k -> Zdigits2 m <= k.
Proof.
  intros Hm Hk Hlt. destruct m as [|p|p]; simpl; [lia| |lia].
  apply digits2_le; assumption.
Qed.

Lemma Zdigits2_bound m : 0 <= m -> m < 2 ^ Zdigits2 m.
Proof.
  intros Hm. destruct m as [|p|p]; simpl; [lia| |lia]. apply digits2_bound.
Qed.

Lemma Zdigits2_nonneg m : 0 <= Zdigits2 m.
Proof. destruct m; simpl; lia. Qed.

Lemma shr_m_of_loc m l : shr_m (shr_record_of_loc m l) = m.
Proof. destruct l as [|[]]; reflexivity. Qed.

(** The exponent and the mantissa after [shr_fexp]. *)
Lemma shr_fexp_shape p em m e l :
  0 <= m ->
  let n := fexp p em (Zdigits2 m + e) - e in
  snd (shr_fexp p em m e l) = Z.max e (fexp p em (Zdigits2 m + e))
  /\ shr_m (fst (shr_fexp p em m e l)) = m / 2 ^ Z.max 0 n.
Proof.
  intros Hm n. unfold shr_fexp, shr. fold n.
  destruct n as [|q|q] eqn:En; simpl fst; simpl snd.
  - rewrite shr_m_of_loc. split; [lia|]. simpl. rewrite Z.div_1_r. reflexivity.
  - rewrite iter_pos_nat.
    destruct (shr_iter_div (Pos.to_nat q) (shr_record_of_loc m l)) as [_ D].
    { rewrite shr_m_of_loc. exact Hm. }
    rewrite D, shr_m_of_loc, positive_nat_Z. split; [lia|].
    rewrite Z.max_r by lia. reflexivity.
  - rewrite shr_m_of_loc. split; [lia|]. simpl. rewrite Z.div_1_r. reflexivity.
Qed.

Lemma round_nearest_even_le m l : round_nearest_even m l <= m + 1.
Proof. destruct l as [|[]]; simpl; try lia. destruct (Z.even m); lia. Qed.

Lemma fexp64 x : fexp Binary64.prec Binary64.emax x = Z.max (x - 53) (-1074).
Proof. reflexivity. Qed.

(** Rounding a non-negative mantissa below 2^1023 in value never reaches infinity. *)
Lemma binary_round_aux_no_overflow mx ex lx :
  0 <= mx -> Zdigits2 mx + ex <= 1023 -> ex <= 970 ->
  match binary_round_aux Binary64.prec Binary64.emax false mx ex lx with
  | S754_infinity _ => False
  | _ => True
  end.
Proof.
  intros Hm HE Hex. unfold binary_round_aux.
  pose proof (shr_fexp_shape Binary64.prec Binary64.emax mx ex lx Hm) as [S1 M1].
  pose proof (shr_fexp_nonneg Binary64.prec Binary64.emax mx ex lx Hm) as N1.
  destruct (shr_fexp Binary64.prec Binary64.emax mx ex lx) as [mrs' e']. simpl in S1, M1, N1.
  set (m1 := round_nearest_even (shr_m mrs') (loc_of_shr_record mrs')).
  assert (Hm1 : 0 <= m1) by (apply round_nearest_even_nonneg; exact N1).
  pose proof (shr_fexp_shape Binary64.prec Binary64.emax m1 e' loc_Exact Hm1) as [S2 _].
  destruct (shr_fexp Binary64.prec Binary64.emax m1 e' loc_Exact) as [mrs'' e'']. simpl in S2.
  destruct (shr_m mrs''); auto.
  assert (B : e'' <= 971); [|unfold Binary64.emax, Binary64.prec; destruct (Z.leb_spec e'' (1024 - 53)); [exact I|lia]].
  rewrite fexp64 in S1, S2, M1.
  assert (He' : e' <= 970) by lia.
  assert (D : Zdigits2 m1 + e' <= 1024); [|lia].
  pose proof (Zdigits2_nonneg mx) as Dn.
  assert (Hk : 0 <= 1024 - e') by lia.
  cut (m1 < 2 ^ (1024 - e')).
  { intros C. pose proof (Zdigits2_le m1 (1024 - e') Hm1 Hk C). lia. }
  pose proof (round_nearest_even_le (shr_m mrs') (loc_of_shr_record mrs')) as R. fold m1 in R.
  cut (shr_m mrs' < 2 ^ (1023 - e')).
  { intros C. replace (1024 - e') with (Z.succ (1023 - e')) by lia.
    rewrite Z.pow_succ_r by lia. lia. }
  rewrite M1. set (n := Z.max 0 (Z.max (Zdigits2 mx + ex - 53) (-1074) - ex)).
  assert (Hn : 0 <= n) by (unfold n; lia).
  apply Z.div_lt_upper_bound; [lia|].
  rewrite <- Z.pow_add_r by lia.
  pose proof (Zdigits2_bound mx Hm) as Bm.
  eapply Z.lt_le_trans; [exact Bm|]. apply Z.pow_le_mono_r; unfold n; lia.
Qed.

Lemma digits2_iter_xO p k : digits2_pos (Pos.iter xO p k) = (digits2_pos p + k)%positive.
Proof.
  induction k using Pos.peano_ind.
  - simpl. lia.
  - rewrite Pos.iter_succ. simpl. rewrite IHk. lia.
Qed.

Lemma of_int_returns z : 0 <= z < 2 ^ 1023 -> exists x, Binary64.of_int z = Some x.
Proof.
  intros [Hz Hb]. unfold Binary64.of_int, binary_normalize.
  destruct z as [|p|p]; [eexists; reflexivity| |lia].
  unfold binary_round.
  assert (Dp : Z.pos (digits2_pos p) <= 1023) by (apply digits2_le; lia).
  destruct (shl_align p 0 (fexp Binary64.prec Binary64.emax (Z.pos (digits2_pos p) + 0))) as [mz ez] eqn:A.
  assert (HA : Z.pos (digits2_pos mz) + ez <= 1023 /\ ez <= 970).
  { unfold shl_align in A. rewrite fexp64 in A.
    destruct (Z.max (Z.pos (digits2_pos p) + 0 - 53) (-1074) - 0) as [|q|q] eqn:Eq;
      apply pair_equal_spec in A; destruct A as [A1 A2]; subst mz ez; try lia.
    rewrite digits2_iter_xO, Pos2Z.inj_add. pose proof (Pos2Z.neg_is_neg q). lia. }
  destruct HA as [HA1 HA2].
  pose proof (binary_round_aux_no_overflow (Z.pos mz) ez loc_Exact ltac:(lia) HA1 HA2) as NO.
  destruct (binary_round_aux _ _ _ _ _ _); try contradiction; eexists; reflexivity.
Qed.

Lemma binary_round_aux_sign p em mx ex lx :
  0 <= mx -> Binary64.sign_clear (binary_round_aux p em false mx ex lx) = true.
Proof.
  intros Hm. unfold binary_round_aux.
  pose proof (shr_fexp_nonneg p em mx ex lx Hm) as H1.
  destruct (shr_fexp p em mx ex lx) as [mrs' e']. simpl in H1.
  pose proof (shr_fexp_nonneg p em (round_nearest_even (shr_m mrs') (loc_of_shr_record mrs')) e' loc_Exact
                (round_nearest_even_nonneg _ _ H1)) as H2.
  destruct (shr_fexp p em _ e' loc_Exact) as [mrs'' e'']. simpl in H2.
  destruct (shr_m mrs''); [reflexivity| |lia].
  destruct (Z.leb e'' (em - p)); reflexivity.
Qed.

Lemma b64_mul_sign x y :
  Binary64.sign_clear x = true -> Binary64.finite_pos y = true -> Binary64.sign_clear (Binary64.b64_mul x y) = true.
Proof.
  destruct y as [| | |[] my ey]; try discriminate. intros Hx _.
  destruct x as [[]|[]| |[] mx ex]; try discriminate; try reflexivity.
  apply binary_round_aux_sign. lia.
Qed.

Lemma b64_div_sign x y :
  Binary64.sign_clear x = true -> Binary64.finite_pos y = true -> Binary64.sign_clear (Binary64.b64_div x y) = true.
Proof.
  destruct y as [| | |[] my ey]; try discriminate. intros Hx _.
  destruct x as [[]|[]| |[] mx ex]; try discriminate; try reflexivity.
  unfold Binary64.b64_div, SFdiv. 
  destruct (SFdiv_core_binary Binary64.prec Binary64.emax (Z.pos mx) ex (Z.pos my) ey) as [[mz ez] lz] eqn:E.
  apply binary_round_aux_sign.
  unfold SFdiv_core_binary in E.
  set (m' := match _ with Z.pos _ => _ | Z0 => Z.pos mx | Z.neg _ => 0 end) in E.
  assert (Hm' : 0 <= m').
  { subst m'. destruct (_ - _ - _); try lia. apply Z.shiftl_nonneg. lia. }
  pose proof (Z_div_mod m' (Z.pos my) ltac:(lia)) as D.
  destruct (Z.div_eucl m' (Z.pos my)) as [q r]. inversion E; subst.
  destruct D as [D1 D2]. nia.
Qed.

Lemma b64_add_sign x y :
  Binary64.sign_clear x = true -> Binary64.sign_clear y = true -> Binary64.sign_clear (Binary64.b64_add x y) = true.
Proof.
  destruct x as [[]|[]| |[] mx ex]; try discriminate;
  destruct y as [[]|[]| |[] my ey]; try discriminate; try reflexivity.
  intros _ _. unfold Binary64.b64_add, SFadd.
  set (ez := Z.min ex ey).
  simpl cond_Zopp.
  unfold binary_normalize. rewrite <- Pos2Z.inj_add.
  unfold binary_round.
  destruct (shl_align _ _ _) as [mz ez'].
  apply binary_round_aux_sign. lia.
Qed.

Lemma of_int_sign z x : 0 <= z -> Binary64.of_int z = Some x -> Binary64.sign_clear x = true.
Proof.
  intros Hz. unfold Binary64.of_int, binary_normalize.
  destruct z as [|p|p]; [intros E; inversion E; reflexivity| |lia].
  unfold binary_round. destruct (shl_align _ _ _) as [mz ez].
  pose proof (binary_round_aux_sign Binary64.prec Binary64.emax (Z.pos mz) ez loc_Exact ltac:(lia)) as S.
  destruct (binary_round_aux _ _ _ _ _ _); intros E; inversion E; subst; auto.
Qed.

Lemma sign_clear_leb x : Binary64.sign_clear x = true -> Binary64.leb Binary64.zero x = true.
Proof. destruct x as [[]|[]| |[] m e]; try discriminate; reflexivity. Qed.

Lemma per_million_sign count (rate : spec_float) x :
  0 <= count -> Binary64.finite_pos rate = true ->
  per_million count rate = Some x -> Binary64.sign_clear x = true.
Proof.
  intros Hc Hr. unfold per_million. cbn [float_of_int fmul fdiv Binary64.binary64_float].
  destruct (Binary64.of_int count) as [c|] eqn:Ec; [|discriminate].
  destruct (Binary64.of_int 1000000) as [m|] eqn:Em; [|discriminate].
  intros E. inversion E; subst x. apply b64_div_sign.
  - apply b64_mul_sign; [eapply of_int_sign; eauto | exact Hr].
  - vm_compute in Em. inversion Em. reflexivity.
Qed.

Lemma per_million_returns count (rate : spec_float) :
  0 <= count < 2 ^ 1023 -> exists x, per_million count rate = Some x.
Proof.
  intros Hc. unfold per_million. cbn [float_of_int fmul fdiv Binary64.binary64_float].
  destruct (of_int_returns count Hc) as [c Ec]. rewrite Ec.
  destruct (of_int_returns 1000000 ltac:(split; [lia | reflexivity])) as [m Em]. rewrite Em.
  eexists. reflexivity.
Qed.

(** C5: for every model identifier and every tally of non-negative
    counters, a tally with [cacheRead + cacheWrite > input] has its net
    input clamped to zero, and the cost the program returns in binary64
    under the model's card (or the default card) is never negative: it
    compares [0.0 <= cost].  The cost is returned whenever the counters
    are below 2^1023 (beyond the float range the conversion raises
    [OverflowError]); in exact arithmetic it is non-negative as well. *)
Theorem cost_never_negative model (u : usage_dict spec_float) :
  0 <= input u -> 0 <= output u -> 0 <= cacheRead u -> 0 <= cacheWrite u ->
  (input u < cacheRead u + cacheWrite u -> net_input u = 0)
  /\ (forall c, _cost model u = Some c -> Binary64.leb Binary64.zero c = true)
  /\ (input u < 2 ^ 1023 -> output u < 2 ^ 1023 ->
      cacheRead u < 2 ^ 1023 -> cacheWrite u < 2 ^ 1023 ->
      exists c, _cost model u = Some c)
  /\ (exists q, _cost (F := Q) model
                  (tally (input u) (output u) (cacheRead u) (cacheWrite u)) = Some q
                /\ (0 <= q)%Q).
Proof.
  intros Hi Ho Hr Hw.
  assert (Hn : 0 <= net_input u) by (unfold net_input; lia).
  split; [|split; [|split]].
  - intros Hlt. unfold net_input. lia.
  - intros c. unfold _cost. fold (rates_of (F := spec_float) model).
    destruct (b64_cards_ok model) as (Ci & Co & Cr & Cw).
    destruct (per_million (net_input u) _) as [a|] eqn:Ea; [|discriminate].
    destruct (per_million (output u) _) as [b|] eqn:Eb; [|discriminate].
    destruct (per_million (cacheRead u) _) as [c'|] eqn:Ec; [|discriminate].
    destruct (per_million (cacheWrite u) _) as [d|] eqn:Ed; [|discriminate].
    intros E. inversion E; subst c. apply sign_clear_leb.
    cbn [fadd Binary64.binary64_float].
    apply b64_add_sign; [apply b64_add_sign; [apply b64_add_sign|]|].
    + exact (per_million_sign _ _ _ Hn Ci Ea).
    + exact (per_million_sign _ _ _ Ho Co Eb).
    + exact (per_million_sign _ _ _ Hr Cr Ec).
    + exact (per_million_sign _ _ _ Hw Cw Ed).
  - intros Bi Bo Br Bw. unfold _cost.
    assert (Bn : net_input u < 2 ^ 1023) by (unfold net_input; lia).
    destruct (per_million_returns (net_input u) (rate_input (rates_of model)) (conj Hn Bn)) as [a Ea].
    destruct (per_million_returns (output u) (rate_output (rates_of model)) (conj Ho Bo)) as [b Eb].
    destruct (per_million_returns (cacheRead u) (rate_cacheRead (rates_of model)) (conj Hr Br)) as [c Ec].
    destruct (per_million_returns (cacheWrite u) (rate_cacheWrite (rates_of model)) (conj Hw Bw)) as [d Ed].
    unfold rates_of in Ea, Eb, Ec, Ed. rewrite Ea, Eb, Ec, Ed. eexists. reflexivity.
  - eexists. split; [apply cost_exact_unfold|].
    destruct (exact_cards_ok model) as (Qi & Qo & Qr & Qw & _).
    unfold net_input, tally; simpl.
    assert (Zn : (0 <= inject_Z (Z.max 0 (input u - cacheRead u - cacheWrite u)))%Q)
      by (change 0%Q with (inject_Z 0); apply inject_Z_le; lia).
    assert (Zo : (0 <= inject_Z (output u))%Q)
      by (change 0%Q with (inject_Z 0); apply inject_Z_le; lia).
    assert (Zr : (0 <= inject_Z (cacheRead u))%Q)
      by (change 0%Q with (inject_Z 0); apply inject_Z_le; lia).
    assert (Zw : (0 <= inject_Z (cacheWrite u))%Q)
      by (change 0%Q with (inject_Z 0); apply inject_Z_le; lia).
    rewrite sum_per_million. unfold Qdiv. apply Qmult_le_0_compat; [|vm_compute; discriminate].
    set (rs := rates_of model) in *. nra.
Qed.

(** A tally at which every hypothesis of [cost_never_negative] holds and
    the clamp is at work. *)
Lemma cost_never_negative_witness :
  net_input (tally (F := spec_float) 10 5 100 100) = 0
  /\ exists c, _cost "claude-opus-4-6" (tally (F := spec_float) 10 5 100 100) = Some c
               /\ Binary64.leb Binary64.zero c = true.
Proof.
  pose proof (cost_never_negative "claude-opus-4-6" (tally (F := spec_float) 10 5 100 100)) as T.
  simpl in T.
  destruct T as (T1 & T2 & T3 & _); try lia.
  split; [apply T1; lia|].
  destruct T3 as [c Ec]; try (vm_compute; reflexivity).
  exists c. split; [exact Ec | apply T2; exact Ec].
Defined.


(** ** Project folder decoder *)

Lemma probe_bounds e path parts i k test_path j :
  probe e path parts i k = Some (test_path, j) -> (i < j <= i + k)%nat.
Proof.
  induction k as [|k IH]; simpl; [discriminate|].
  destruct (path_exists e _).
  - intros E. inversion E; subst. lia.
  - intros E. apply IH in E. lia.
Qed.

(** The rounds allotted to the loop are never used up: any two
    allowances of at least [length parts - i] rounds give the same result. *)
Lemma decode_loop_fuel e folder_name parts fuel1 :
  forall fuel2 best path i,
    (length parts - i <= fuel1)%nat -> (length parts - i <= fuel2)%nat ->
    decode_loop e folder_name parts fuel1 best path i
    = decode_loop e folder_name parts fuel2 best path i.
Proof.
  induction fuel1 as [|f1 IH]; intros fuel2 best path i H1 H2.
  - destruct fuel2; simpl; destruct (Nat.ltb_spec i (length parts)); try reflexivity; lia.
  - destruct fuel2 as [|f2]; simpl; destruct (Nat.ltb_spec i (length parts)); try reflexivity; try lia.
    destruct (probe e path parts i (length parts - i)) as [[test_path j]|] eqn:P; [|reflexivity].
    apply probe_bounds in P. apply IH; lia.
Qed.

(** C9: an input that is neither the encoded home directory nor
    prefixed by the encoded home followed by a hyphen is returned
    unchanged. *)
Theorem decode_identity e folder_name :
  folder_name <> home_encoded e ->
  PyStr.startswith folder_name (home_encoded e ++ "-") = false ->
  _decode_project_folder e folder_name = folder_name.
Proof.
  intros N P. unfold _decode_project_folder.
  destruct (String.eqb_spec folder_name (home_encoded e)) as [E|_]; [contradiction|].
  cbv zeta. rewrite P. reflexivity.
Qed.

(** Witness of [decode_identity]: the folder of the repository's own test. *)
Lemma decode_identity_witness :
  _decode_project_folder (sample_env None) "some-random-folder" = "some-random-folder".
Proof.
  apply decode_identity; [vm_compute; discriminate | vm_compute; reflexivity].
Defined.

(** ** Sorting *)

Lemma insert_desc_perm {A K} (ltb : K -> K -> bool) (key : A -> K) x l :
  Permutation (x :: l) (Py.insert_desc ltb key x l).
Proof.
  induction l as [|y r IH]; simpl; [reflexivity|].
  destruct (ltb (key x) (key y)); [|reflexivity].
  rewrite perm_swap. constructor. exact IH.
Qed.

Lemma sorted_desc_perm {A K} (ltb : K -> K -> bool) (key : A -> K) l :
  Permutation l (Py.sorted_desc ltb key l).
Proof.
  induction l as [|x r IH]; simpl; [reflexivity|].
  rewrite <- insert_desc_perm. constructor. exact IH.
Qed.

Lemma insert_desc_sorted {A} (key : A -> Z) x l :
  StronglySorted (fun a b => key b <= key a) l ->
  StronglySorted (fun a b => key b <= key a) (Py.insert_desc Z.ltb key x l).
Proof.
  induction l as [|y r IH]; simpl; intros S.
  - constructor; constructor.
  - inversion S as [|? ? Sr Fy]; subst.
    destruct (Z.ltb_spec (key x) (key y)) as [L|G].
    + constructor; [apply IH; exact Sr|].
      eapply Permutation_Forall; [apply insert_desc_perm|].
      constructor; [lia | exact Fy].
    + constructor; [exact S|]. constructor; [exact G|].
      eapply Forall_impl; [|exact Fy]. simpl. intros; lia.
Qed.

Lemma sorted_desc_sorted {A} (key : A -> Z) l :
  StronglySorted (fun a b => key b <= key a) (Py.sorted_desc Z.ltb key l).
Proof.
  induction l as [|x r IH]; simpl; [constructor | apply insert_desc_sorted; exact IH].
Qed.

(** ** Session summarizer: order and truncation *)

(** C6: for every log tree and every non-negative row limit, the
    sessions query returns the collected rows sorted by modification
    time, most recent first, cut to the first [limit] of them, that is
    [min(limit, matching)] rows, and reports as total the number of
    matching sessions before the cut.  (The window is one the calendar
    can represent; otherwise computing the cutoff raises.) *)
Theorem sessions_sorted_and_truncated {F} `{PyFloat F} e days limit cutoff :
  cutoff_of e days = Some cutoff ->
  0 <= limit ->
  exists out ordered,
    SessionsQuery.compute_sessions (F := F) e days limit = Some out
    /\ Permutation (matching_sessions e cutoff) ordered
    /\ StronglySorted (fun a b => SessionRow.mtime b <= SessionRow.mtime a) ordered
    /\ SessionsOut.sessions out = firstn (Z.to_nat limit) ordered
    /\ Z.of_nat (length (SessionsOut.sessions out))
       = Z.min limit (Z.of_nat (length (matching_sessions (F := F) e cutoff)))
    /\ SessionsOut.total out = Z.of_nat (length (matching_sessions (F := F) e cutoff))
    /\ SessionsOut.days out = days.
Proof.
  intros Hc Hl. unfold SessionsQuery.compute_sessions, matching_sessions.
  destruct (projects e) as [tree|].
  - rewrite Hc.
    set (rows := SessionsQuery.collect e cutoff tree).
    set (ordered := Py.sorted_desc Z.ltb (@SessionRow.mtime F) rows).
    assert (P : Permutation rows ordered) by apply sorted_desc_perm.
    exists {| SessionsOut.sessions := Py.slice_to ordered limit;
              SessionsOut.total := Z.of_nat (length ordered);
              SessionsOut.days := days |}, ordered.
    assert (E : Py.slice_to ordered limit = firstn (Z.to_nat limit) ordered).
    { unfold Py.slice_to. destruct (Z.leb_spec 0 limit); [reflexivity | lia]. }
    pose proof (Permutation_length P) as L.
    simpl. rewrite E, length_firstn, <- L.
    repeat split; auto.
    + apply sorted_desc_sorted.
    + lia.
  - exists {| SessionsOut.sessions := []; SessionsOut.total := 0; SessionsOut.days := days |}, [].
    simpl. rewrite firstn_nil. repeat split; auto.
    + constructor.
    + lia.
Qed.

(** Witness of [sessions_sorted_and_truncated]: two sessions, one row asked for. *)
Lemma sessions_sorted_and_truncated_witness :
  exists out ordered,
    SessionsQuery.compute_sessions (F := spec_float) (sample_env (Some two_file_tree)) 7 1 = Some out
    /\ Permutation (matching_sessions (sample_env (Some two_file_tree)) sample_cutoff) ordered
    /\ StronglySorted (fun a b => SessionRow.mtime b <= SessionRow.mtime a) ordered
    /\ SessionsOut.sessions out = firstn (Z.to_nat 1) ordered
    /\ Z.of_nat (length (SessionsOut.sessions out))
       = Z.min 1 (Z.of_nat (length (matching_sessions (F := spec_float)
                                      (sample_env (Some two_file_tree)) sample_cutoff)))
    /\ SessionsOut.total out
       = Z.of_nat (length (matching_sessions (F := spec_float)
                             (sample_env (Some two_file_tree)) sample_cutoff))
    /\ SessionsOut.days out = 7.
Proof.
  apply (sessions_sorted_and_truncated (F := spec_float)
           (sample_env (Some two_file_tree)) 7 1 sample_cutoff).
  - vm_compute. reflexivity.
  - lia.
Defined.

(** ** Nothing to scan *)





(** ** Day buckets *)

(** C4 fails on the code: a file whose only record reports cached
    tokens leaves a day bucket in [byDay] whose [models] mapping is
    empty.  The guard [if models] looks at the bucket before its
    zero-token models are filtered out. *)
Theorem empty_day_bucket_survives :
  exists out,
    UsageQuery.compute_usage (F := spec_float)
      (sample_env (Some (one_file_tree cache_only_record))) 7 = Some out
    /\ UsageOut.byModel out = []
    /\ UsageOut.byDay out
       = [{| Day.date := "2026-11-02"; Day.models := []; Day.sessions := 0 |}].
Proof.
  eexists. split; [vm_compute; reflexivity|]. split; reflexivity.
Qed.

(** C8, as stated, fails: on a tree with one sonnet record the entry of
    the day bucket carries no [estimatedCost], while the entry of
    [byModel] for the same model does. *)
Lemma day_entry_without_cost :
  exists out d u,
    UsageQuery.compute_usage (F := spec_float)
      (sample_env (Some (one_file_tree sonnet_record))) 7 = Some out
    /\ UsageOut.byDay out = [d]
    /\ Day.models d = [("claude-sonnet-4-6", u)]
    /\ estimatedCost u = None
    /\ exists v x, UsageOut.byModel out = [("claude-sonnet-4-6", v)] /\ estimatedCost v = Some x.
Proof.
  do 3 eexists. split; [vm_compute; reflexivity|].
  split; [reflexivity|]. split; [reflexivity|]. split; [reflexivity|].
  do 2 eexists. split; reflexivity.
Qed.

(** C3, as stated, fails: a session file modified inside the window
    whose single usage record is dated ten months before the cutoff
    still counts as a session in the usage query and still yields a row,
    with the record's tokens, in the sessions query; without the file
    both queries report nothing. *)
Lemma stale_record_still_counts :
  String.ltb "2026-01-01" (PyTime.strftime_ymd sample_cutoff) = true
  /\ cutoff_of (sample_env (Some (one_file_tree stale_record))) 7 = Some sample_cutoff
  /\ (exists out,
         UsageQuery.compute_usage (F := spec_float)
           (sample_env (Some (one_file_tree stale_record))) 7 = Some out
         /\ UsageOut.totalSessions out = 1)
  /\ (exists out row,
         SessionsQuery.compute_sessions (F := spec_float)
           (sample_env (Some (one_file_tree stale_record))) 7 50 = Some out
         /\ SessionsOut.sessions out = [row]
         /\ SessionsOut.total out = 1
         /\ SessionRow.totalInput row = 7 /\ SessionRow.totalOutput row = 3
         /\ SessionRow.date row = JStr "2026-01-01")
  /\ UsageQuery.compute_usage (F := spec_float) (sample_env (Some no_file_tree)) 7
     = Some (empty_usage_output 7)
  /\ SessionsQuery.compute_sessions (F := spec_float) (sample_env (Some no_file_tree)) 7 50
     = Some (empty_sessions_output 7).
Proof.
  split; [vm_compute; reflexivity|]. split; [vm_compute; reflexivity|].
  split; [eexists; split; [vm_compute; reflexivity | reflexivity]|].
  split; [do 2 eexists; split; [vm_compute; reflexivity | repeat split; reflexivity]|].
  split; vm_compute; reflexivity.
Qed.

(** ** Dictionaries: lookup and update *)

Lemma get_in {V} (d : dict V) k v : PyDict.get d k = Some v -> In (k, v) d.
Proof.
  induction d as [|[k' v'] r IH]; simpl; [discriminate|].
  destruct (String.eqb_spec k' k) as [->|N].
  - intros E. inversion E. left. reflexivity.
  - intros E. right. apply IH. exact E.
Qed.

Lemma Forall_values_get {V} (P : V -> Prop) (d : dict V) k v :
  Forall (fun kv => P (snd kv)) d -> PyDict.get d k = Some v -> P v.
Proof.
  intros A E. apply get_in in E. rewrite Forall_forall in A. exact (A _ E).
Qed.

Lemma Forall_values_get_or {V} (P : V -> Prop) (d : dict V) k def :
  Forall (fun kv => P (snd kv)) d -> P def -> P (get_or d k def).
Proof.
  intros A D. unfold get_or. destruct (PyDict.get d k) eqn:E; [|exact D].
  eapply Forall_values_get; eauto.
Qed.

Lemma Forall_values_set {V} (P : V -> Prop) (d : dict V) k v :
  Forall (fun kv => P (snd kv)) d -> P v -> Forall (fun kv => P (snd kv)) (set d k v).
Proof.
  intros A Pv. induction d as [|[k' v'] r IH]; simpl.
  - constructor; [exact Pv | constructor].
  - inversion A; subst. destruct (String.eqb k' k); constructor; auto.
Qed.

Lemma get_set_same {V} (d : dict V) k v : PyDict.get (set d k v) k = Some v.
Proof.
  induction d as [|[k' v'] r IH]; simpl.
  - rewrite String.eqb_refl. reflexivity.
  - destruct (String.eqb k' k) eqn:E; simpl; rewrite E; [reflexivity | exact IH].
Qed.

Lemma get_set_other {V} (d : dict V) k k' v : k' <> k -> PyDict.get (set d k v) k' = PyDict.get d k'.
Proof.
  intros N. induction d as [|[k0 v0] r IH]; simpl.
  - destruct (String.eqb_spec k k'); [congruence | reflexivity].
  - destruct (String.eqb_spec k0 k) as [->|N0]; simpl.
    + destruct (String.eqb_spec k k'); [congruence | reflexivity].
    + rewrite IH. reflexivity.
Qed.

(** ** Invariants of statements *)

Lemma preserves_ret {S A} (I : S -> Prop) (a : A) : preserves I (ret a).
Proof. intros s Hs. exact Hs. Qed.

Lemma preserves_continue {S A} (I : S -> Prop) : preserves I (@continue_ S A).
Proof. intros s Hs. exact Hs. Qed.

Lemma preserves_raise {S A} (I : S -> Prop) : preserves I (@raise_ S A).
Proof. intros s Hs. exact Hs. Qed.

Lemma preserves_call {S A} (I : S -> Prop) (r : option A) : preserves I (call r).
Proof. destruct r; intros s Hs; exact Hs. Qed.

Lemma preserves_update {S} (I : S -> Prop) (f : S -> option S) :
  (forall s s', I s -> f s = Some s' -> I s') -> preserves I (update f).
Proof.
  intros Hf s Hs. unfold update. destruct (f s) eqn:E; simpl; eauto.
Qed.

Lemma preserves_bind {S A B} (I : S -> Prop) (m : M S A) (k : A -> M S B) :
  preserves I m -> (forall a, preserves I (k a)) -> preserves I (bind m k).
Proof.
  intros Hm Hk s Hs. unfold bind. specialize (Hm s Hs).
  destruct (m s) as [[a| |] s']; simpl in *; auto. apply Hk. exact Hm.
Qed.

Lemma preserves_for_each {S A} (I : S -> Prop) (body : A -> M S unit) xs :
  (forall x, preserves I (body x)) -> preserves I (for_each body xs).
Proof.
  intros Hb. induction xs as [|x r IH]; intros s Hs; simpl; [exact Hs|].
  specialize (Hb x s Hs). destruct (body x s) as [[[]| |] s']; simpl in *; auto.
Qed.

Ltac step_preserves :=
  repeat first
    [ apply preserves_continue | apply preserves_raise | apply preserves_call | apply preserves_ret
    | apply preserves_bind; [|intros ?]
    | match goal with
      | |- preserves _ (if ?c then _ else _) => destruct c
      | |- preserves _ (match ?x with Parsed _ => _ | DecodeError => _ | OtherError => _ end) =>
          destruct x
      end ].

(** ** The accumulators never hold a cost *)

Section Bare.

Context {F : Type} `{PyFloat F}.

Lemma bare_ensure (d : dict (usage_dict F)) model : bare_dict d -> bare_dict (ensure d model).
Proof.
  intros B. unfold ensure. destruct (mem d model); [exact B|].
  apply (Forall_values_set (fun u => estimatedCost u = None)); [exact B | reflexivity].
Qed.

Lemma bare_bump (d d' : dict (usage_dict F)) model c usage :
  bare_dict d -> bump d model c usage = Some d' -> bare_dict d'.
Proof.
  intros B. unfold bump.
  destruct (PyDict.get d model) as [u|] eqn:G; [|discriminate].
  destruct (Py.get usage (log_key c) (JInt 0)) as [v|]; [|discriminate].
  destruct (Py.int_add (counter_of c u) v) as [z|]; [|discriminate].
  intros E. inversion E; subst d'.
  apply (Forall_values_set (fun u => estimatedCost u = None)); [exact B|].
  pose proof (Forall_values_get (fun u => estimatedCost u = None) d model u B G) as Bu.
  destruct c; exact Bu.
Qed.

Lemma bare_ensure_buckets day_str model (s s' : @UsageQuery.state F) :
  bare_state s -> UsageQuery.ensure_buckets day_str model s = Some s' -> bare_state s'.
Proof.
  intros [Bm Bd] E. unfold UsageQuery.ensure_buckets in E. inversion E; subst s'.
  split; simpl.
  - apply bare_ensure. exact Bm.
  - apply (Forall_values_set bare_dict); [exact Bd|]. apply bare_ensure.
    apply (Forall_values_get_or bare_dict); [exact Bd | constructor].
Qed.

Lemma bare_bump_model model c usage (s s' : @UsageQuery.state F) :
  bare_state s -> UsageQuery.bump_model model c usage s = Some s' -> bare_state s'.
Proof.
  intros [Bm Bd]. unfold UsageQuery.bump_model.
  destruct (bump _ _ _ _) eqn:E; [|discriminate].
  intros E'. inversion E'; subst s'. split; simpl; [eapply bare_bump; eauto | exact Bd].
Qed.

Lemma bare_bump_day day_str model c usage (s s' : @UsageQuery.state F) :
  bare_state s -> UsageQuery.bump_day day_str model c usage s = Some s' -> bare_state s'.
Proof.
  intros [Bm Bd]. unfold UsageQuery.bump_day.
  destruct (PyDict.get _ _) eqn:G; [|discriminate].
  destruct (bump _ _ _ _) eqn:E; [|discriminate].
  intros E'. inversion E'; subst s'. split; simpl; [exact Bm|].
  apply (Forall_values_set bare_dict); [exact Bd|]. eapply bare_bump; [|exact E].
  eapply (Forall_values_get bare_dict); eauto.
Qed.

Lemma usage_line_bare cutoff_str session_day l :
  preserves (@bare_state F) (UsageQuery.line_body cutoff_str session_day l).
Proof.
  unfold UsageQuery.line_body. cbv zeta.
  step_preserves; apply preserves_update; intros s s' B E;
    eauto using bare_ensure_buckets, bare_bump_model, bare_bump_day.
Qed.

Lemma usage_file_bare e cutoff cutoff_str (st : @UsageQuery.state F) f :
  bare_state st -> bare_state (UsageQuery.file_body e cutoff cutoff_str st f).
Proof.
  intros B. unfold UsageQuery.file_body.
  destruct (f_mtime f); [|exact B]. destruct (fromtimestamp e _); [|exact B].
  destruct (_ <? _); [exact B|].
  assert (B1 : bare_state (UsageQuery.count_session (PyTime.strftime_ymd z0) st))
    by (destruct B; split; assumption).
  destruct (f_lines f); [|exact B1].
  apply preserves_for_each; [|exact B1]. intros x. apply usage_line_bare.
Qed.

Lemma fold_left_invariant {A B} (I : A -> Prop) (f : A -> B -> A) l :
  (forall a b, I a -> I (f a b)) -> forall a, I a -> I (fold_left f l a).
Proof. intros Hf. induction l; simpl; auto. Qed.

Lemma usage_scan_bare e cutoff tree : bare_state (UsageQuery.scan (F := F) e cutoff tree).
Proof.
  unfold UsageQuery.scan. apply fold_left_invariant.
  - intros st [name nd] B. unfold UsageQuery.project_body. simpl.
    destruct nd; [exact B|]. apply fold_left_invariant; [|exact B].
    intros; apply usage_file_bare; assumption.
  - split; constructor.
Qed.

Lemma with_costs_entries (d d' : dict (usage_dict F)) :
  UsageQuery.with_costs d = Some d' ->
  forall model u, In (model, u) d' ->
    exists u0 c, In (model, u0) d /\ _cost model u0 = Some c /\ u = set_cost u0 (fround c 4).
Proof.
  revert d'. induction d as [|[m u0] r IH]; simpl; intros d' E model u I.
  - inversion E; subst. contradiction.
  - destruct (_cost m u0) as [c|] eqn:C; [|discriminate].
    destruct (UsageQuery.with_costs r) as [r'|]; [|discriminate].
    inversion E; subst d'. destruct I as [I|I].
    + inversion I; subst. exists u0, c. auto.
    + destruct (IH r' eq_refl model u I) as (u1 & c1 & I1 & C1 & E1).
      exists u1, c1. auto.
Qed.

Lemma cost_ignores_cost model (u : usage_dict F) x : _cost model (set_cost u x) = _cost model u.
Proof. reflexivity. Qed.

End Bare.

(** C8, as amended: in the usage query output every entry of the
    top-level [byModel] mapping has a positive input+output sum and
    carries [estimatedCost], the cost of its tally rounded to 4 decimal
    places; the model entries inside the [byDay] buckets have a positive
    input+output sum too, but they are the bare tallies of the four
    counters and carry no [estimatedCost]. *)
Theorem cost_on_models_not_on_days {F} `{PyFloat F} e days out :
  UsageQuery.compute_usage (F := F) e days = Some out ->
  (forall model u, In (model, u) (UsageOut.byModel out) ->
     has_tokens u = true
     /\ exists c, _cost model u = Some c /\ estimatedCost u = Some (fround c 4))
  /\ (forall d model u, In d (UsageOut.byDay out) -> In (model, u) (Day.models d) ->
        has_tokens u = true /\ estimatedCost u = None).
Proof.
  unfold UsageQuery.compute_usage. destruct (projects e) as [tree|].
  2:{ intros E. inversion E; subst out. simpl. split; intros; contradiction. }
  destruct (cutoff_of e days) as [cutoff|]; [|discriminate]. cbv zeta.
  pose proof (usage_scan_bare (F := F) e cutoff tree) as [Bm Bd].
  set (st := UsageQuery.scan e cutoff tree) in *.
  destruct (UsageQuery.with_costs _) as [costed|] eqn:W; [|discriminate].
  destruct (map_call _ _) as [costs|]; [|discriminate].
  destruct (py_sum costs) as [total|]; [|discriminate].
  intros E. inversion E; subst out. simpl. split.
  - intros model u I.
    destruct (with_costs_entries _ _ W model u I) as (u0 & c & I0 & C & ->).
    apply filter_In in I0. destruct I0 as [_ T]. simpl in T.
    split; [exact T|]. exists c. rewrite cost_ignores_cost. split; [exact C | reflexivity].
  - intros d model u Id Iu. unfold UsageQuery.by_day_list in Id.
    apply (Permutation_in _ (Permutation_sym (sorted_desc_perm _ _ _))) in Id.
    apply in_map_iff in Id. destruct Id as ([day bucket] & <- & Ib).
    apply filter_In in Ib. destruct Ib as [Ib _].
    simpl in Iu. apply filter_In in Iu. destruct Iu as [Iu T]. simpl in T.
    split; [exact T|].
    unfold bare_state in Bd. rewrite Forall_forall in Bd. specialize (Bd _ Ib). simpl in Bd.
    unfold bare_dict in Bd. rewrite Forall_forall in Bd. exact (Bd _ Iu).
Qed.

(** Witness of [cost_on_models_not_on_days]: the tree with one sonnet record. *)
Lemma cost_on_models_not_on_days_witness :
  exists out,
    UsageQuery.compute_usage (F := spec_float)
      (sample_env (Some (one_file_tree sonnet_record))) 7 = Some out
    /\ (forall model u, In (model, u) (UsageOut.byModel out) ->
          has_tokens u = true
          /\ exists c, _cost model u = Some c /\ estimatedCost u = Some (fround c 4))
    /\ (forall d model u, In d (UsageOut.byDay out) -> In (model, u) (Day.models d) ->
          has_tokens u = true /\ estimatedCost u = None).
Proof.
  eexists. split; [vm_compute; reflexivity|].
  apply (cost_on_models_not_on_days (F := spec_float)
           (sample_env (Some (one_file_tree sonnet_record))) 7).
  vm_compute. reflexivity.
Defined.

(** ** Files and records outside the window *)

Section Stale.

Context {F : Type} `{PyFloat F}.

Lemma usage_file_stale e cutoff cutoff_str (st : @UsageQuery.state F) f :
  modified_before e cutoff f -> UsageQuery.file_body e cutoff cutoff_str st f = st.
Proof.
  intros (mtime & dt & Em & Ed & Lt). unfold UsageQuery.file_body. rewrite Em, Ed.
  destruct (Z.ltb_spec dt cutoff); [reflexivity | lia].
Qed.

Lemma sessions_file_stale e cutoff project_display f :
  modified_before e cutoff f ->
  SessionsQuery.file_rows (F := F) e cutoff project_display f = [].
Proof.
  intros (mtime & dt & Em & Ed & Lt). unfold SessionsQuery.file_rows. rewrite Em, Ed.
  destruct (Z.ltb_spec dt cutoff); [reflexivity | lia].
Qed.

Lemma usage_scan_stale e cutoff pre name before f after post :
  modified_before e cutoff f ->
  UsageQuery.scan (F := F) e cutoff (tree_with pre name before f after post)
  = UsageQuery.scan e cutoff (tree_without pre name before after post).
Proof.
  intros S. unfold UsageQuery.scan, tree_with, tree_without.
  rewrite !fold_left_app. simpl. f_equal.
  unfold UsageQuery.project_body. simpl.
  rewrite !fold_left_app. simpl. rewrite (usage_file_stale _ _ _ _ _ S). reflexivity.
Qed.

Lemma sessions_collect_stale e cutoff pre name before f after post :
  modified_before e cutoff f ->
  SessionsQuery.collect (F := F) e cutoff (tree_with pre name before f after post)
  = SessionsQuery.collect e cutoff (tree_without pre name before after post).
Proof.
  intros S. unfold SessionsQuery.collect, tree_with, tree_without.
  rewrite !flat_map_app. simpl. f_equal. f_equal.
  unfold SessionsQuery.project_rows. simpl.
  rewrite !flat_map_app. simpl. rewrite (sessions_file_stale _ _ _ _ S). reflexivity.
Qed.

Lemma usage_line_stale cutoff_str session_day l em ts (st : @UsageQuery.state F) :
  l_json l = Parsed (JObj em) ->
  PyDict.get em "timestamp" = Some (JStr ts) ->
  PyStr.nonempty ts = true ->
  String.ltb (PyStr.take 10 ts) cutoff_str = true ->
  UsageQuery.line_body cutoff_str session_day l st = (Continue, st).
Proof.
  intros Ej Et Nt Lt. unfold UsageQuery.line_body. cbv zeta.
  destruct (_ || _); [reflexivity|].
  rewrite Ej. unfold bind, call, Py.get, get_or. rewrite Et. simpl.
  rewrite Nt. simpl. rewrite Lt. reflexivity.
Qed.

Lemma probe_env e tree path parts i k :
  probe (with_projects e tree) path parts i k = probe e path parts i k.
Proof.
  induction k as [|k IH]; simpl; [reflexivity|]. rewrite IH. reflexivity.
Qed.

Lemma decode_loop_env e tree folder_name parts fuel :
  forall best path i,
    decode_loop (with_projects e tree) folder_name parts fuel best path i
    = decode_loop e folder_name parts fuel best path i.
Proof.
  induction fuel as [|fuel IH]; intros best path i; simpl; [reflexivity|].
  rewrite probe_env.
  destruct (i <? length parts)%nat; [|reflexivity].
  destruct (probe e path parts i (length parts - i)) as [[test_path j]|]; [apply IH | reflexivity].
Qed.

Lemma decode_env e tree folder_name :
  _decode_project_folder (with_projects e tree) folder_name = _decode_project_folder e folder_name.
Proof.
  unfold _decode_project_folder. cbv zeta. rewrite decode_loop_env. reflexivity.
Qed.

Lemma collect_env e tree cutoff t :
  SessionsQuery.collect (F := F) (with_projects e tree) cutoff t = SessionsQuery.collect e cutoff t.
Proof.
  unfold SessionsQuery.collect. apply flat_map_ext. intros [name nd].
  unfold SessionsQuery.project_rows. simpl. rewrite decode_env. reflexivity.
Qed.

End Stale.

(** C3, as amended: for every log tree, a session file whose
    modification time is before [now - days] contributes nothing to the
    output of the usage query or of the sessions query: each output
    equals the output on the tree without the file (no token counts, no
    day bucket, no session row, no increment of any session count).  A
    usage record whose timestamp is dated before the cutoff date, inside
    a file that is scanned, leaves the accumulators of the usage query
    as they were: it adds no token counts and no day bucket there. *)
Theorem stale_file_contributes_nothing {F} `{PyFloat F}
  e days limit cutoff pre name before f after post :
  cutoff_of e days = Some cutoff ->
  modified_before e cutoff f ->
  UsageQuery.compute_usage (F := F)
    (with_projects e (Some (tree_with pre name before f after post))) days
  = UsageQuery.compute_usage
      (with_projects e (Some (tree_without pre name before after post))) days
  /\ SessionsQuery.compute_sessions (F := F)
       (with_projects e (Some (tree_with pre name before f after post))) days limit
     = SessionsQuery.compute_sessions
         (with_projects e (Some (tree_without pre name before after post))) days limit
  /\ (forall cutoff_str session_day l em ts (st : @UsageQuery.state F),
         l_json l = Parsed (JObj em) ->
         PyDict.get em "timestamp" = Some (JStr ts) ->
         PyStr.nonempty ts = true ->
         String.ltb (PyStr.take 10 ts) cutoff_str = true ->
         UsageQuery.line_body cutoff_str session_day l st = (Continue, st)).
Proof.
  intros Hc S.
  assert (S1 : modified_before (with_projects e (Some (tree_with pre name before f after post))) cutoff f)
    by exact S.
  assert (S2 : modified_before (with_projects e (Some (tree_without pre name before after post))) cutoff f)
    by exact S.
  split; [|split].
  - unfold UsageQuery.compute_usage. simpl projects.
    change (cutoff_of (with_projects e _) days) with (cutoff_of e days). rewrite Hc. cbv zeta.
    rewrite (usage_scan_stale _ cutoff pre name before f after post S1). reflexivity.
  - unfold SessionsQuery.compute_sessions. simpl projects.
    change (cutoff_of (with_projects e _) days) with (cutoff_of e days). rewrite Hc. cbv zeta.
    rewrite !collect_env.
    rewrite (sessions_collect_stale e cutoff pre name before f after post S). reflexivity.
  - intros. eapply usage_line_stale; eauto.
Qed.

(** Witness of [stale_file_contributes_nothing]: a file of April 2025
    beside a file of the window. *)
Lemma stale_file_contributes_nothing_witness :
  UsageQuery.compute_usage (F := spec_float)
    (with_projects (sample_env None)
       (Some (tree_with [] "-home-asus-proj" [] stale_file
                [readable "s2.jsonl" (day_us 20760) [sonnet_record]] []))) 7
  = UsageQuery.compute_usage
      (with_projects (sample_env None)
         (Some (tree_without [] "-home-asus-proj" []
                  [readable "s2.jsonl" (day_us 20760) [sonnet_record]] []))) 7
  /\ SessionsQuery.compute_sessions (F := spec_float)
       (with_projects (sample_env None)
          (Some (tree_with [] "-home-asus-proj" [] stale_file
                   [readable "s2.jsonl" (day_us 20760) [sonnet_record]] []))) 7 50
     = SessionsQuery.compute_sessions
         (with_projects (sample_env None)
            (Some (tree_without [] "-home-asus-proj" []
                     [readable "s2.jsonl" (day_us 20760) [sonnet_record]] []))) 7 50
  /\ (forall cutoff_str session_day l em ts (st : @UsageQuery.state spec_float),
         l_json l = Parsed (JObj em) ->
         PyDict.get em "timestamp" = Some (JStr ts) ->
         PyStr.nonempty ts = true ->
         String.ltb (PyStr.take 10 ts) cutoff_str = true ->
         UsageQuery.line_body cutoff_str session_day l st = (Continue, st)).
Proof.
  apply (stale_file_contributes_nothing (F := spec_float) (sample_env None) 7 50 sample_cutoff).
  - vm_compute. reflexivity.
  - exists (day_us 20200), (epoch + day_us 20200).
    split; [reflexivity|]. split; [reflexivity|]. vm_compute. reflexivity.
Defined.

(** ** Attribution of a record to its model *)

Section Attribution.

Context {F : Type} `{PyFloat F}.

Lemma update_some {S} (f : S -> option S) s s' : f s = Some s' -> update f s = (Ok tt, s').
Proof. intros E. unfold update. rewrite E. reflexivity. Qed.

Lemma bind_update_some {S B} (f : S -> option S) (k : unit -> M S B) s s' :
  f s = Some s' -> bind (update f) k s = k tt s'.
Proof. intros E. unfold bind. rewrite (update_some f s s' E). reflexivity. Qed.

Lemma tally_of_get (d : dict (usage_dict F)) m u : PyDict.get d m = Some u -> tally_of d m = u.
Proof. intros E. unfold tally_of, get_or. rewrite E. reflexivity. Qed.

Lemma ensure_get (d : dict (usage_dict F)) m :
  PyDict.get (ensure d m) m = Some (tally_of d m)
  /\ (forall k, k <> m -> PyDict.get (ensure d m) k = PyDict.get d k).
Proof.
  unfold ensure, mem, tally_of, get_or.
  destruct (PyDict.get d m) as [u|] eqn:E.
  - split; [exact E | reflexivity].
  - split; [apply get_set_same | intros k N; apply get_set_other; exact N].
Qed.



Lemma truthy_obj (um : dict json) : um <> [] -> Py.truthy (JObj um) = true.
Proof. destruct um; [congruence | reflexivity]. Qed.




Lemma bind_ok {S A B} (m : M S A) (k : A -> M S B) s a s' :
  m s = (Ok a, s') -> bind m k s = k a s'.
Proof. intros E. unfold bind. rewrite E. reflexivity. Qed.

(** Noting the timestamp of a line completes and leaves the tallies alone. *)
Lemma sessions_note_timestamp (has_ts : bool) em (s : @SessionsQuery.state F) :
  exists s',
    (if has_ts
     then bind (call (Py.get (JObj em) "timestamp" (JStr "")))
            (fun ts => if Py.truthy ts then update (SessionsQuery.see_timestamp ts) else ret tt)
     else ret tt) s = (Ok tt, s')
    /\ SessionsQuery.by_model s' = SessionsQuery.by_model s.
Proof.
  destruct has_ts; [|exists s; split; reflexivity].
  cbn [Py.get call bind ret].
  destruct (Py.truthy (get_or em "timestamp" (JStr ""))); [|exists s; split; reflexivity].
  eexists. split; reflexivity.
Qed.

(** Counting a message completes and leaves the tallies alone. *)
Lemma sessions_note_type (has_type : bool) em (s : @SessionsQuery.state F) :
  exists s',
    (if has_type
     then bind (call (Py.get (JObj em) "type" JNull))
            (fun ty => if Py.is_user_or_assistant ty
                       then update SessionsQuery.count_message else ret tt)
     else ret tt) s = (Ok tt, s')
    /\ SessionsQuery.by_model s' = SessionsQuery.by_model s.
Proof.
  destruct has_type; [|exists s; split; reflexivity].
  cbn [Py.get call bind ret].
  destruct (Py.is_user_or_assistant (get_or em "type" JNull)); [|exists s; split; reflexivity].
  eexists. split; reflexivity.
Qed.


End Attribution.




(** * Further properties *)

(** ** Cost: nothing to bill, and tallies taken together *)

(** X1: in binary64, as the program runs, a tally without output and
    cache tokens whose input count is zero or negative costs [+0.0]
    under every model identifier: the clamp turns the input into 0 and
    each of the four terms is [+0.0]. *)
Theorem cost_of_nothing_is_zero model i :
  i <= 0 ->
  _cost (F := spec_float) model (tally i 0 0 0) = Some Binary64.zero.
Proof.
  intros Hi. unfold _cost. fold (rates_of (F := spec_float) model).
  destruct (b64_cards_ok model) as (Ci & Co & Cr & Cw).
  unfold net_input, tally. cbn [input output cacheRead cacheWrite].
  replace (Z.max 0 (i - 0 - 0)) with 0 by lia.
  destruct (rate_input (rates_of model)) as [| | |[] mi ei]; try discriminate Ci.
  destruct (rate_output (rates_of model)) as [| | |[] mo eo]; try discriminate Co.
  destruct (rate_cacheRead (rates_of model)) as [| | |[] mr er]; try discriminate Cr.
  destruct (rate_cacheWrite (rates_of model)) as [| | |[] mw ew]; try discriminate Cw.
  reflexivity.
Qed.

(** Witness of [cost_of_nothing_is_zero]: the zero tally of the
    repository's own test. *)
Lemma cost_of_nothing_is_zero_witness :
  _cost (F := spec_float) "claude-sonnet-4-6" (tally 0 0 0 0) = Some Binary64.zero.
Proof. apply (cost_of_nothing_is_zero "claude-sonnet-4-6" 0). lia. Defined.


(** ** Project folder decoder: shape of the result, and probing *)

Lemma prefix_app p r : String.prefix p (p ++ r) = true.
Proof.
  induction p as [|a p IH]; cbn [String.prefix append]; [destruct r; reflexivity|].
  destruct (ascii_dec a a); [exact IH | congruence].
Qed.

Lemma drop_app p r : PyStr.drop (String.length p) (p ++ r) = r.
Proof.
  induction p as [|a p IH]; cbn [String.length PyStr.drop append];
    [destruct r; reflexivity | exact IH].
Qed.

Lemma append_assoc (a b c : string) : (a ++ b) ++ c = a ++ b ++ c.
Proof. induction a as [|x a IH]; cbn [append]; [reflexivity | rewrite IH; reflexivity]. Qed.

Lemma length_append (a b : string) :
  String.length (a ++ b) = (String.length a + String.length b)%nat.
Proof. induction a as [|x a IH]; cbn [append String.length]; [reflexivity | rewrite IH; reflexivity]. Qed.

Lemma split_nonempty c s : PyStr.split c s <> [].
Proof.
  destruct s as [|a r]; cbn [PyStr.split]; [discriminate|].
  destruct (Ascii.eqb a c); [discriminate|]. destruct (PyStr.split c r); discriminate.
Qed.

(** Joining the fields of a split with the separator gives the string back. *)
Lemma join_split c s : PyStr.join (String c "") (PyStr.split c s) = s.
Proof.
  unfold PyStr.join. induction s as [|a r IH]; cbn [PyStr.split]; [reflexivity|].
  pose proof (split_nonempty c r) as N.
  destruct (Ascii.eqb_spec a c) as [E|D].
  - subst a. destruct (PyStr.split c r) as [|h t]; [congruence|].
    change (String.concat (String c "") ("" :: h :: t))
      with (String c (String.concat (String c "") (h :: t))).
    rewrite IH. reflexivity.
  - destruct (PyStr.split c r) as [|h t]; [congruence|].
    rewrite <- IH. destruct t; reflexivity.
Qed.

Lemma slice_all {A} (l : list A) : Py.slice l 0 (length l) = l.
Proof. unfold Py.slice. rewrite Nat.sub_0_r. cbn [skipn]. apply firstn_all. Qed.


Lemma not_home_encoded h rest : String.eqb (h ++ "-" ++ rest) h = false.
Proof.
  apply String.eqb_neq. intros E. apply (f_equal String.length) in E.
  rewrite length_append in E. cbn [append String.length] in E. lia.
Qed.

Lemma starts_with_tilde x : PyStr.startswith ("~/" ++ x) "~/" = true.
Proof. exact (prefix_app "~/" x). Qed.

Lemma decode_loop_shape e folder_name parts fuel :
  forall best path i,
    decode_loop e folder_name parts fuel best path i = folder_name
    \/ PyStr.startswith (decode_loop e folder_name parts fuel best path i) "~/" = true.
Proof.
  induction fuel as [|fuel IH]; intros best path i; cbn [decode_loop];
    destruct (i <? length parts)%nat.
  - left. reflexivity.
  - destruct (PyStr.nonempty best); [right; apply starts_with_tilde | left; reflexivity].
  - destruct (probe e path parts i (length parts - i)) as [[test_path j]|]; [apply IH|].
    right. destruct (negb _); apply starts_with_tilde.
  - destruct (PyStr.nonempty best); [right; apply starts_with_tilde | left; reflexivity].
Qed.

(** A folder name made of the encoded home, a hyphen and a remainder
    enters the probing loop with the hyphen-separated fields of the
    remainder. *)
Lemma decode_under_home e rest :
  _decode_project_folder e (home_encoded e ++ "-" ++ rest)
  = decode_loop e (home_encoded e ++ "-" ++ rest) (PyStr.split "-" rest)
      (length (PyStr.split "-" rest)) "" (home e) 0.
Proof.
  unfold _decode_project_folder. cbv zeta. rewrite not_home_encoded.
  unfold PyStr.startswith. rewrite <- append_assoc, prefix_app, drop_app. reflexivity.
Qed.

(** X3: whatever is on disk, the decoder returns its input unchanged,
    the string [~], or a string that starts with [~/]; it never returns
    an absolute path. *)
Theorem decoded_folder_shape e folder_name :
  _decode_project_folder e folder_name = folder_name
  \/ _decode_project_folder e folder_name = "~"
  \/ PyStr.startswith (_decode_project_folder e folder_name) "~/" = true.
Proof.
  unfold _decode_project_folder. cbv zeta.
  destruct (String.eqb folder_name (home_encoded e)); [right; left; reflexivity|].
  destruct (PyStr.startswith folder_name _); [|left; reflexivity].
  destruct (decode_loop_shape e folder_name
              (PyStr.split "-" (PyStr.drop (String.length (home_encoded e ++ "-")) folder_name))
              (length (PyStr.split "-" (PyStr.drop (String.length (home_encoded e ++ "-")) folder_name)))
              "" (home e) 0) as [E|P]; [left; exact E | right; right; exact P].
Qed.



(** X5: the longest candidate is probed first.  When the whole
    remainder, hyphens included, names an existing entry of the home
    directory, the decoder returns [~/] followed by the path of that
    entry relative to home, whatever shorter names exist as well. *)
Theorem decode_prefers_whole_name e rest :
  home e <> "" ->
  path_exists e (path_join (home e) rest) = true ->
  _decode_project_folder e (home_encoded e ++ "-" ++ rest)
  = "~/" ++ relpath e (path_join (home e) rest) (home e).
Proof.
  intros Hh X. rewrite decode_under_home.
  pose proof (split_nonempty "-" rest) as P. pose proof (join_split "-" rest) as J.
  destruct (PyStr.split "-" rest) as [|p ps] eqn:Sp; [congruence|].
  cbn [length decode_loop Nat.ltb Nat.leb].
  rewrite Nat.sub_0_r. cbn [probe]. cbn [Nat.add].
  change (S (length ps)) with (length (p :: ps)). rewrite slice_all, J, X.
  assert (L : (length (p :: ps) <? length (p :: ps))%nat = false) by apply Nat.ltb_irrefl.
  assert (B : PyStr.nonempty (path_join (home e) rest) = true).
  { unfold path_join. destruct (PyStr.startswith rest "/") eqn:R.
    - destruct rest; [discriminate R | reflexivity].
    - destruct (home e) as [|a h]; [congruence|]. destruct (_ || _); reflexivity. }
  destruct (length ps) as [|n] eqn:Ln; cbn [decode_loop]; rewrite L, B; reflexivity.
Qed.

(** Witness of [decode_prefers_whole_name]: [my] and [my-project] both
    exist under home. *)
Lemma decode_prefers_whole_name_witness :
  _decode_project_folder (sample_disk ["/home/asus/my"; "/home/asus/my-project"])
    "-home-asus-my-project" = "~/my-project".
Proof.
  apply (decode_prefers_whole_name (sample_disk ["/home/asus/my"; "/home/asus/my-project"])
           "my-project").
  - discriminate.
  - vm_compute. reflexivity.
Defined.

(** ** Order of strings, and sorting by a string or an integer key *)

Lemma string_compare_trans a : forall b c,
  String.compare a b = Lt -> String.compare b c = Lt -> String.compare a c = Lt.
Proof.
  induction a as [|x a IH]; intros [|y b] [|z c]; cbn [String.compare]; try congruence.
  unfold Ascii.compare.
  destruct (N.compare_spec (N_of_ascii x) (N_of_ascii y)) as [E1|L1|G1]; try discriminate;
  destruct (N.compare_spec (N_of_ascii y) (N_of_ascii z)) as [E2|L2|G2]; try discriminate;
  intros H1 H2.
  - rewrite E1, E2, N.compare_refl. eauto.
  - rewrite E1. apply N.compare_lt_iff in L2. rewrite L2. reflexivity.
  - rewrite <- E2. apply N.compare_lt_iff in L1. rewrite L1. reflexivity.
  - assert (L : (N_of_ascii x < N_of_ascii z)%N) by lia.
    apply N.compare_lt_iff in L. rewrite L. reflexivity.
Qed.

Lemma string_ltb_trans a b c :
  String.ltb a b = true -> String.ltb b c = true -> String.ltb a c = true.
Proof.
  unfold String.ltb. intros H1 H2.
  destruct (String.compare a b) eqn:E1; try discriminate.
  destruct (String.compare b c) eqn:E2; try discriminate.
  rewrite (string_compare_trans _ _ _ E1 E2). reflexivity.
Qed.

Lemma string_ltb_total a b : String.ltb a b = false -> a <> b -> String.ltb b a = true.
Proof.
  unfold String.ltb. intros H N. rewrite String.compare_antisym.
  destruct (String.compare a b) eqn:E; try discriminate; [|reflexivity].
  apply String.compare_eq_iff in E. contradiction.
Qed.

Lemma insert_desc_strict {A} (key : A -> string) x l :
  ~ In (key x) (map key l) ->
  StronglySorted (fun a b => String.ltb (key b) (key a) = true) l ->
  StronglySorted (fun a b => String.ltb (key b) (key a) = true) (Py.insert_desc String.ltb key x l).
Proof.
  induction l as [|y r IH]; cbn [Py.insert_desc map]; intros N S.
  - constructor; constructor.
  - inversion S as [|? ? Sr Fy]; subst.
    destruct (String.ltb (key x) (key y)) eqn:L.
    + constructor; [apply IH; [intros I; apply N; right; exact I | exact Sr]|].
      eapply Permutation_Forall; [apply insert_desc_perm|].
      constructor; [exact L | exact Fy].
    + assert (G : String.ltb (key y) (key x) = true).
      { apply string_ltb_total; [exact L|]. intros E. apply N. left. symmetry. exact E. }
      constructor; [exact S|]. constructor; [exact G|].
      eapply Forall_impl; [|exact Fy]. cbv beta. intros a Ha.
      exact (string_ltb_trans _ _ _ Ha G).
Qed.

(** Sorting items of distinct string keys leaves them strictly descending. *)
Lemma sorted_desc_strict {A} (key : A -> string) l :
  NoDup (map key l) ->
  StronglySorted (fun a b => String.ltb (key b) (key a) = true) (Py.sorted_desc String.ltb key l).
Proof.
  induction l as [|x r IH]; cbn [map]; intros N; [constructor|].
  inversion N as [|? ? Nx Nr]; subst.
  cbn [Py.sorted_desc fold_right]. apply insert_desc_strict; [|apply IH; exact Nr].
  intros I. apply Nx.
  eapply Permutation_in; [|exact I]. apply Permutation_map, Permutation_sym, sorted_desc_perm.
Qed.

Lemma insert_desc_ties {A} (key : A -> Z) k x l :
  filter (fun a => key a =? k) (Py.insert_desc Z.ltb key x l)
  = filter (fun a => key a =? k) (x :: l).
Proof.
  induction l as [|y r IH]; [reflexivity|].
  cbn [Py.insert_desc]. destruct (Z.ltb_spec (key x) (key y)) as [L|G]; [|reflexivity].
  cbn [filter] in *. rewrite IH.
  destruct (Z.eqb_spec (key x) k), (Z.eqb_spec (key y) k); try reflexivity; lia.
Qed.

(** The sort is stable: the items of one key keep their order. *)
Lemma sorted_desc_ties {A} (key : A -> Z) k l :
  filter (fun a => key a =? k) (Py.sorted_desc Z.ltb key l) = filter (fun a => key a =? k) l.
Proof.
  induction l as [|x r IH]; [reflexivity|].
  cbn [Py.sorted_desc fold_right]. rewrite insert_desc_ties. cbn [filter].
  unfold Py.sorted_desc in IH. rewrite IH. reflexivity.
Qed.

Lemma slice_to_prefix {A} (l : list A) n : exists rest, l = (Py.slice_to l n ++ rest)%list.
Proof.
  unfold Py.slice_to. destruct (0 <=? n); eexists; symmetry; apply firstn_skipn.
Qed.

Lemma slice_to_in {A} (l : list A) n x : In x (Py.slice_to l n) -> In x l.
Proof.
  intros I. destruct (slice_to_prefix l n) as [rest E]. rewrite E. apply in_or_app. left. exact I.
Qed.

(** ** Keys of a dictionary *)

Lemma keys_set_in {V} (d : dict V) k v k' : In k' (keys (set d k v)) -> k' = k \/ In k' (keys d).
Proof.
  induction d as [|[k0 v0] r IH]; cbn [set keys map fst].
  - intros [E|[]]. left. symmetry. exact E.
  - destruct (String.eqb k0 k); cbn [map fst]; intros [E|Hin].
    + right. left. exact E.
    + right. right. exact Hin.
    + right. left. exact E.
    + destruct (IH Hin) as [E|Hr]; [left; exact E | right; right; exact Hr].
Qed.

(** An assignment never makes a key occur twice. *)
Lemma keys_set_nodup {V} (d : dict V) k v : NoDup (keys d) -> NoDup (keys (set d k v)).
Proof.
  induction d as [|[k0 v0] r IH]; cbn [set keys map fst]; intros N.
  - constructor; [intros []|constructor].
  - inversion N as [|? ? N0 Nr]; subst.
    destruct (String.eqb_spec k0 k) as [E|D]; cbn [map fst]; [exact N|].
    constructor; [|apply IH; exact Nr].
    intros I. apply keys_set_in in I. destruct I as [E|I]; [congruence | contradiction].
Qed.

Lemma keys_filter_nodup {V} (p : string * V -> bool) (d : dict V) :
  NoDup (keys d) -> NoDup (keys (filter p d)).
Proof.
  induction d as [|kv r IH]; cbn [filter keys map]; intros N; [constructor|].
  inversion N as [|? ? N0 Nr]; subst.
  destruct (p kv); cbn [map]; [|apply IH; exact Nr].
  constructor; [|apply IH; exact Nr].
  intros I. apply N0. unfold keys in I. apply in_map_iff in I. destruct I as (x & E & I).
  apply filter_In in I. rewrite <- E. apply in_map. apply I.
Qed.

Lemma get_of_key {V} (d : dict V) k : In k (keys d) -> exists v, PyDict.get d k = Some v.
Proof.
  induction d as [|[k0 v0] r IH]; cbn [keys map fst PyDict.get]; [intros []|].
  intros [E|Hr].
  - subst k0. rewrite String.eqb_refl. eauto.
  - destruct (String.eqb k0 k); eauto.
Qed.

(** ** Usage aggregator: the days of the output and the session total *)

Lemma fold_add_shift l : forall a, fold_left Z.add l a = a + fold_left Z.add l 0.
Proof.
  induction l as [|x r IH]; intros a; cbn [fold_left]; [lia|].
  rewrite (IH (a + x)), (IH (0 + x)). lia.
Qed.

(** Counting one more session under a day adds one to the sum of the counts. *)
Lemma count_one_more (d : dict Z) k :
  fold_left Z.add (values (set d k (get_or d k 0 + 1))) 0 = fold_left Z.add (values d) 0 + 1.
Proof.
  induction d as [|[k0 v0] r IH]; [reflexivity|].
  unfold get_or in *. cbn [PyDict.get set].
  destruct (String.eqb k0 k); cbn [values map snd fold_left].
  - rewrite (fold_add_shift _ (0 + (v0 + 1))), (fold_add_shift _ (0 + v0)). lia.
  - rewrite (fold_add_shift _ (0 + v0)). unfold values in IH. rewrite IH.
    rewrite (fold_add_shift (map snd r) (0 + v0)). lia.
Qed.

Lemma count_app {A} (p : A -> bool) (l1 l2 : list A) :
  Z.of_nat (length (filter p (l1 ++ l2)))
  = Z.of_nat (length (filter p l1)) + Z.of_nat (length (filter p l2)).
Proof. rewrite filter_app, length_app. lia. Qed.

Section Days.

Context {F : Type} `{PyFloat F}.

Lemma usage_line_distinct_days cutoff_str session_day l :
  preserves (@distinct_days F) (UsageQuery.line_body cutoff_str session_day l).
Proof.
  unfold UsageQuery.line_body. cbv zeta.
  step_preserves; apply preserves_update; intros s s' B E;
    unfold UsageQuery.ensure_buckets, UsageQuery.bump_model, UsageQuery.bump_day in E;
    repeat match type of E with
           | match ?x with _ => _ end = _ => destruct x; [|discriminate]
           end;
    inversion E; subst s'; unfold distinct_days; cbn [UsageQuery.by_day];
    first [exact B | apply keys_set_nodup; exact B].
Qed.

Lemma usage_scan_distinct_days e cutoff tree :
  distinct_days (UsageQuery.scan (F := F) e cutoff tree).
Proof.
  unfold UsageQuery.scan. apply fold_left_invariant; [|constructor].
  intros st [name nd] B. unfold UsageQuery.project_body. cbn [snd].
  destruct nd; [exact B|]. apply fold_left_invariant; [|exact B].
  clear. intros st f B. unfold UsageQuery.file_body.
  destruct (f_mtime f); [|exact B]. destruct (fromtimestamp e _); [|exact B].
  destruct (_ <? _); [exact B|].
  destruct (f_lines f); [|exact B].
  apply preserves_for_each; [|exact B]. intros x. apply usage_line_distinct_days.
Qed.

(** A line of a session file never touches the per-day session counts. *)
Lemma usage_line_keeps_sessions cutoff_str session_day l d :
  preserves (fun st : @UsageQuery.state F => UsageQuery.sessions_by_day st = d)
    (UsageQuery.line_body cutoff_str session_day l).
Proof.
  unfold UsageQuery.line_body. cbv zeta.
  step_preserves; apply preserves_update; intros s s' B E;
    unfold UsageQuery.ensure_buckets, UsageQuery.bump_model, UsageQuery.bump_day in E;
    repeat match type of E with
           | match ?x with _ => _ end = _ => destruct x; [|discriminate]
           end;
    inversion E; subst s'; exact B.
Qed.

Lemma usage_file_counted e cutoff cutoff_str (st : @UsageQuery.state F) f :
  counted (UsageQuery.file_body e cutoff cutoff_str st f)
  = counted st + (if in_window e cutoff f then 1 else 0).
Proof.
  unfold UsageQuery.file_body, in_window.
  destruct (f_mtime f) as [mtime|]; [|lia]. destruct (fromtimestamp e mtime) as [dt|]; [|lia].
  destruct (dt <? cutoff); cbn [negb]; [lia|].
  assert (C : counted (UsageQuery.count_session (PyTime.strftime_ymd dt) st) = counted st + 1)
    by apply count_one_more.
  destruct (f_lines f) as [ls|]; [|exact C].
  rewrite <- C. unfold counted. f_equal. f_equal.
  apply (preserves_for_each
           (fun s : @UsageQuery.state F => UsageQuery.sessions_by_day s
              = UsageQuery.sessions_by_day (UsageQuery.count_session (PyTime.strftime_ymd dt) st)));
    [|reflexivity].
  intros x. apply usage_line_keeps_sessions.
Qed.

Lemma usage_files_counted e cutoff cutoff_str files :
  forall st : @UsageQuery.state F,
    counted (fold_left (UsageQuery.file_body e cutoff cutoff_str) files st)
    = counted st + Z.of_nat (length (filter (in_window e cutoff) files)).
Proof.
  induction files as [|f r IH]; intros st; cbn [fold_left filter]; [simpl; lia|].
  rewrite IH, usage_file_counted. destruct (in_window e cutoff f); cbn [length]; lia.
Qed.

(** The scan counts one session for each file of the window, whatever
    the file holds. *)
Lemma usage_tree_counted e cutoff cutoff_str tree :
  forall st : @UsageQuery.state F,
    counted (fold_left (UsageQuery.project_body e cutoff cutoff_str) tree st)
    = counted st + Z.of_nat (length (filter (in_window e cutoff) (session_files tree))).
Proof.
  induction tree as [|[name nd] r IH]; intros st; cbn [fold_left]; [simpl; lia|].
  rewrite IH. unfold session_files. cbn [flat_map snd]. fold (session_files r).
  rewrite count_app. unfold UsageQuery.project_body. cbn [snd].
  destruct nd as [|files]; [simpl; lia|].
  rewrite usage_files_counted. lia.
Qed.

End Days.

(** X6: the [byDay] list of the usage query is strictly descending by
    date string: the most recent day comes first and no date occurs
    twice. *)
Theorem days_newest_first {F} `{PyFloat F} e days out :
  UsageQuery.compute_usage (F := F) e days = Some out ->
  StronglySorted (fun a b => String.ltb (Day.date b) (Day.date a) = true) (UsageOut.byDay out).
Proof.
  unfold UsageQuery.compute_usage. destruct (projects e) as [tree|].
  2:{ intros E. inversion E; subst out. constructor. }
  destruct (cutoff_of e days) as [cutoff|]; [|discriminate]. cbv zeta.
  pose proof (usage_scan_distinct_days (F := F) e cutoff tree) as N.
  set (st := UsageQuery.scan e cutoff tree) in *.
  destruct (UsageQuery.with_costs _) as [costed|]; [|discriminate].
  destruct (map_call _ _) as [costs|]; [|discriminate].
  destruct (py_sum costs) as [total|]; [|discriminate].
  intros E. inversion E; subst out. cbn [UsageOut.byDay].
  unfold UsageQuery.by_day_list. apply sorted_desc_strict.
  rewrite map_map. cbn [UsageQuery.day_entry Day.date].
  apply (keys_filter_nodup UsageQuery.nonempty_bucket). exact N.
Qed.

(** Witness of [days_newest_first]: records of two days in one file. *)
Lemma days_newest_first_witness :
  exists out,
    UsageQuery.compute_usage (F := spec_float) (sample_env (Some two_day_tree)) 7 = Some out
    /\ StronglySorted (fun a b => String.ltb (Day.date b) (Day.date a) = true) (UsageOut.byDay out).
Proof.
  eexists. split; [vm_compute; reflexivity|].
  apply (days_newest_first (F := spec_float) (sample_env (Some two_day_tree)) 7).
  vm_compute. reflexivity.
Defined.

(** X7: [totalSessions] of the usage query is the number of session
    files whose modification time can be read and is not before the
    cutoff, whether or not a file can be opened and whatever its lines
    hold. *)
Theorem total_sessions_counts_window_files {F} `{PyFloat F} e days cutoff tree out :
  projects e = Some tree ->
  cutoff_of e days = Some cutoff ->
  UsageQuery.compute_usage (F := F) e days = Some out ->
  UsageOut.totalSessions out
  = Z.of_nat (length (filter (in_window e cutoff) (session_files tree))).
Proof.
  intros Ep Ec. unfold UsageQuery.compute_usage. rewrite Ep, Ec. cbv zeta.
  destruct (UsageQuery.with_costs _) as [costed|]; [|discriminate].
  destruct (map_call _ _) as [costs|]; [|discriminate].
  destruct (py_sum costs) as [total|]; [|discriminate].
  intros E. inversion E; subst out. cbn [UsageOut.totalSessions].
  unfold UsageQuery.scan.
  exact (usage_tree_counted (F := F) e cutoff _ tree UsageQuery.init).
Qed.

(** Witness of [total_sessions_counts_window_files]: two files of the window. *)
Lemma total_sessions_counts_window_files_witness :
  exists out,
    UsageQuery.compute_usage (F := spec_float) (sample_env (Some two_file_tree)) 7 = Some out
    /\ UsageOut.totalSessions out
       = Z.of_nat (length (filter (in_window (sample_env (Some two_file_tree)) sample_cutoff)
                             (session_files two_file_tree))).
Proof.
  eexists. split; [vm_compute; reflexivity|].
  apply (total_sessions_counts_window_files (F := spec_float) (sample_env (Some two_file_tree)) 7
           sample_cutoff two_file_tree).
  - reflexivity.
  - vm_compute. reflexivity.
  - vm_compute. reflexivity.
Defined.

(** ** Session summarizer: where a row comes from and what it reports *)

(** [max] returns an item of the list whose key no other item exceeds. *)
Lemma max_by_spec {A} (key : A -> Z) l : forall best,
  In (Py.max_by key best l) (best :: l)
  /\ forall x, In x (best :: l) -> key x <= key (Py.max_by key best l).
Proof.
  induction l as [|y r IH]; intros best; cbn [Py.max_by].
  - split; [left; reflexivity|]. intros x [<-|[]]. lia.
  - destruct (Z.ltb_spec (key best) (key y)) as [L|G].
    + destruct (IH y) as [I M]. split; [right; exact I|].
      intros x [<-|Hx]; [|apply M; exact Hx].
      specialize (M y (or_introl eq_refl)). lia.
    + destruct (IH best) as [I M]. split.
      * destruct I as [E|I]; [left; exact E | right; right; exact I].
      * intros x [<-|[<-|Hx]].
        -- apply M. left. reflexivity.
        -- specialize (M best (or_introl eq_refl)). lia.
        -- apply M. right. exact Hx.
Qed.

Section Rows.

Context {F : Type} `{PyFloat F}.

Lemma tokens_nonneg (l : dict (usage_dict F)) :
  (forall kv, In kv l -> has_tokens (snd kv) = true) ->
  0 <= fold_left Z.add (map (@input F) (values l)) 0
       + fold_left Z.add (map (@output F) (values l)) 0.
Proof.
  induction l as [|[k u] r IH]; intros T; [simpl; lia|].
  cbn [values map snd fold_left].
  rewrite (fold_add_shift _ (0 + input u)), (fold_add_shift _ (0 + output u)).
  assert (Tu := T (k, u) (or_introl eq_refl)). unfold has_tokens in Tu. cbn [snd] in Tu.
  apply Z.ltb_lt in Tu.
  assert (R : forall kv, In kv r -> has_tokens (snd kv) = true) by (intros; apply T; right; assumption).
  specialize (IH R). unfold values in IH. lia.
Qed.

Lemma tokens_positive (l : dict (usage_dict F)) :
  l <> [] ->
  (forall kv, In kv l -> has_tokens (snd kv) = true) ->
  0 < fold_left Z.add (map (@input F) (values l)) 0
      + fold_left Z.add (map (@output F) (values l)) 0.
Proof.
  destruct l as [|[k u] r]; [congruence|]. intros _ T.
  cbn [values map snd fold_left].
  rewrite (fold_add_shift _ (0 + input u)), (fold_add_shift _ (0 + output u)).
  assert (Tu := T (k, u) (or_introl eq_refl)). unfold has_tokens in Tu. cbn [snd] in Tu.
  apply Z.ltb_lt in Tu.
  assert (R : forall kv, In kv r -> has_tokens (snd kv) = true) by (intros; apply T; right; assumption).
  pose proof (tokens_nonneg r R) as N. unfold values in N. lia.
Qed.

(** What a row says of the state it was summarized from. *)
Lemma summarize_row project_display f mtime dt (st : @SessionsQuery.state F) row :
  SessionsQuery.summarize project_display f mtime dt st = Some row ->
  let kept := filter_values has_tokens (SessionsQuery.by_model st) in
  SessionRow.project row = project_display
  /\ SessionRow.sessionId row = PyStr.remove_all ".jsonl" (f_name f)
  /\ SessionRow.mtime row = mtime
  /\ 0 < SessionRow.totalInput row + SessionRow.totalOutput row
  /\ exists u, PyDict.get kept (SessionRow.primaryModel row) = Some u
       /\ forall m u', PyDict.get kept m = Some u' -> input u' + output u' <= input u + output u.
Proof.
  unfold SessionsQuery.summarize. cbv zeta.
  remember (filter_values has_tokens (SessionsQuery.by_model st)) as kept eqn:K.
  assert (T : forall kv, In kv kept -> has_tokens (snd kv) = true).
  { intros kv I. rewrite K in I. apply filter_In in I. apply I. }
  clear K. destruct kept as [|[m0 u0] rest]; [discriminate|].
  destruct (map_call _ _) as [costs|]; [|discriminate].
  destruct (py_sum costs) as [total|]; [|discriminate].
  destruct (Py.slice10 _) as [day|]; [|discriminate].
  intros E. inversion E; subst row; clear E.
  cbn [SessionRow.project SessionRow.sessionId SessionRow.mtime SessionRow.totalInput SessionRow.totalOutput SessionRow.primaryModel].
  repeat split.
  - exact (tokens_positive ((m0, u0) :: rest) ltac:(discriminate) T).
  - set (key := fun m => match PyDict.get ((m0, u0) :: rest) m with
                         | Some u => input u + output u
                         | None => 0
                         end).
    destruct (max_by_spec key (keys rest) m0) as [I M].
    set (best := Py.max_by key m0 (keys rest)) in *.
    destruct (get_of_key ((m0, u0) :: rest) best I) as [u G].
    exists u. split; [exact G|].
    intros m u' G'.
    assert (Im : In m (m0 :: keys rest)).
    { apply get_in in G'. apply (in_map fst) in G'. exact G'. }
    specialize (M m Im). unfold key in M. rewrite G, G' in M. exact M.
Qed.

(** A row that a session file appends. *)
Lemma file_rows_origin e cutoff project_display f row :
  In row (SessionsQuery.file_rows (F := F) e cutoff project_display f) ->
  in_window e cutoff f = true
  /\ f_mtime f = Some (SessionRow.mtime row)
  /\ SessionRow.project row = project_display
  /\ SessionRow.sessionId row = PyStr.remove_all ".jsonl" (f_name f)
  /\ 0 < SessionRow.totalInput row + SessionRow.totalOutput row
  /\ exists u, PyDict.get (session_tallies f) (SessionRow.primaryModel row) = Some u
       /\ forall m u', PyDict.get (session_tallies f) m = Some u' ->
            input u' + output u' <= input u + output u.
Proof.
  unfold SessionsQuery.file_rows, in_window, session_tallies.
  destruct (f_mtime f) as [mtime|]; [|intros []].
  destruct (fromtimestamp e mtime) as [dt|]; [|intros []].
  destruct (dt <? cutoff); [intros []|].
  destruct (f_lines f) as [ls|]; [|intros []].
  destruct (for_each SessionsQuery.line_body ls SessionsQuery.init) as [fl st].
  cbn [snd].
  assert (G : In row (if f_broken f then []
                      else match SessionsQuery.summarize project_display f mtime dt st with
                           | Some r => [r]
                           | None => []
                           end) ->
              true = true /\ Some mtime = Some (SessionRow.mtime row)
              /\ SessionRow.project row = project_display
              /\ SessionRow.sessionId row = PyStr.remove_all ".jsonl" (f_name f)
              /\ 0 < SessionRow.totalInput row + SessionRow.totalOutput row
              /\ exists u, PyDict.get (filter_values has_tokens (SessionsQuery.by_model st))
                             (SessionRow.primaryModel row) = Some u
                   /\ forall m u', PyDict.get (filter_values has_tokens (SessionsQuery.by_model st)) m
                                   = Some u' ->
                        input u' + output u' <= input u + output u).
  { destruct (f_broken f); [intros []|].
    destruct (SessionsQuery.summarize _ _ _ _ _) as [r|] eqn:S; [|intros []].
    intros [<-|[]]. apply summarize_row in S. cbv zeta in S.
    destruct S as (P & I & M & T & U). rewrite M. repeat (split; [solve [auto]|]). exact U. }
  destruct fl as [[]| |]; [exact G | exact G | intros []].
Qed.

(** A session file appends at most one row, and none outside the window. *)
Lemma file_rows_length e cutoff project_display f :
  Z.of_nat (length (SessionsQuery.file_rows (F := F) e cutoff project_display f))
  <= if in_window e cutoff f then 1 else 0.
Proof.
  unfold SessionsQuery.file_rows, in_window.
  destruct (f_mtime f) as [mtime|]; [|simpl; lia].
  destruct (fromtimestamp e mtime) as [dt|]; [|simpl; lia].
  destruct (dt <? cutoff); [simpl; lia|].
  destruct (f_lines f) as [ls|]; [|simpl; lia].
  destruct (for_each SessionsQuery.line_body ls SessionsQuery.init) as [[[]| |] st];
    try (simpl; lia);
    (destruct (f_broken f); [simpl; lia|]);
    destruct (SessionsQuery.summarize _ _ _ _ _); simpl; lia.
Qed.

Lemma collect_origin e cutoff tree row :
  In row (SessionsQuery.collect (F := F) e cutoff tree) ->
  exists name files f,
    In (name, Dir files) tree /\ In f files
    /\ In row (SessionsQuery.file_rows e cutoff (_decode_project_folder e name) f).
Proof.
  unfold SessionsQuery.collect. intros I. apply in_flat_map in I.
  destruct I as ([name nd] & It & Ir). unfold SessionsQuery.project_rows in Ir. cbn [fst snd] in Ir.
  destruct nd as [|files]; [destruct Ir|].
  apply in_flat_map in Ir. destruct Ir as (f & If & Ir).
  exists name, files, f. auto.
Qed.

Lemma sessions_out_rows e days limit out row :
  SessionsQuery.compute_sessions (F := F) e days limit = Some out ->
  In row (SessionsOut.sessions out) ->
  exists cutoff tree,
    cutoff_of e days = Some cutoff /\ projects e = Some tree
    /\ In row (SessionsQuery.collect e cutoff tree).
Proof.
  unfold SessionsQuery.compute_sessions.
  destruct (projects e) as [tree|]; [|intros E; inversion E; subst out; intros []].
  destruct (cutoff_of e days) as [cutoff|]; [|discriminate].
  intros E. inversion E; subst out. cbn [SessionsOut.sessions]. intros I.
  exists cutoff, tree. repeat split.
  apply slice_to_in in I.
  apply (Permutation_in _ (Permutation_sym (sorted_desc_perm _ _ _))) in I. exact I.
Qed.

Lemma collect_length e cutoff tree :
  Z.of_nat (length (SessionsQuery.collect (F := F) e cutoff tree))
  <= Z.of_nat (length (filter (in_window e cutoff) (session_files tree))).
Proof.
  unfold SessionsQuery.collect, session_files.
  induction tree as [|[name nd] r IH]; [simpl; lia|]. cbn [flat_map].
  rewrite length_app, count_app, Nat2Z.inj_add.
  apply Z.add_le_mono; [|exact IH].
  unfold SessionsQuery.project_rows. cbn [fst snd]. destruct nd as [|files]; [simpl; lia|].
  generalize (_decode_project_folder e name). intros pd.
  induction files as [|f fs IHf]; [simpl; lia|]. cbn [flat_map filter].
  rewrite length_app, Nat2Z.inj_add.
  pose proof (file_rows_length e cutoff pd f) as L.
  destruct (in_window e cutoff f); cbn [length]; lia.
Qed.

End Rows.

(** X8: every row of the sessions query comes from a session file of
    the log tree whose modification time is not before the cutoff: the
    row carries that modification time, the decoded name of the file's
    project folder, and the file's name without [.jsonl]. *)
Theorem session_rows_come_from_window {F} `{PyFloat F} e days limit out row :
  SessionsQuery.compute_sessions (F := F) e days limit = Some out ->
  In row (SessionsOut.sessions out) ->
  exists cutoff tree name files f,
    cutoff_of e days = Some cutoff /\ projects e = Some tree
    /\ In (name, Dir files) tree /\ In f files
    /\ in_window e cutoff f = true
    /\ f_mtime f = Some (SessionRow.mtime row)
    /\ SessionRow.project row = _decode_project_folder e name
    /\ SessionRow.sessionId row = PyStr.remove_all ".jsonl" (f_name f).
Proof.
  intros E I. destruct (sessions_out_rows _ _ _ _ _ E I) as (cutoff & tree & Ec & Ep & Ic).
  destruct (collect_origin _ _ _ _ Ic) as (name & files & f & It & If & Ir).
  apply file_rows_origin in Ir. destruct Ir as (W & M & P & S & _).
  exists cutoff, tree, name, files, f. auto 10.
Qed.

(** Witness of [session_rows_come_from_window]: the newer of two files. *)
Lemma session_rows_come_from_window_witness :
  exists out row,
    SessionsQuery.compute_sessions (F := spec_float) (sample_env (Some two_file_tree)) 7 50 = Some out
    /\ In row (SessionsOut.sessions out)
    /\ exists cutoff tree name files f,
         cutoff_of (sample_env (Some two_file_tree)) 7 = Some cutoff
         /\ projects (sample_env (Some two_file_tree)) = Some tree
         /\ In (name, Dir files) tree /\ In f files
         /\ in_window (sample_env (Some two_file_tree)) cutoff f = true
         /\ f_mtime f = Some (SessionRow.mtime row)
         /\ SessionRow.project row = _decode_project_folder (sample_env (Some two_file_tree)) name
         /\ SessionRow.sessionId row = PyStr.remove_all ".jsonl" (f_name f).
Proof.
  eexists. eexists. split; [vm_compute; reflexivity|].
  split; [left; reflexivity|].
  eapply (session_rows_come_from_window (F := spec_float) (sample_env (Some two_file_tree)) 7 50).
  - vm_compute. reflexivity.
  - left. reflexivity.
Defined.

(** X9: every row of the sessions query reports a positive sum of
    input and output tokens: a session without such tokens gets no row. *)
Theorem session_rows_have_tokens {F} `{PyFloat F} e days limit out row :
  SessionsQuery.compute_sessions (F := F) e days limit = Some out ->
  In row (SessionsOut.sessions out) ->
  0 < SessionRow.totalInput row + SessionRow.totalOutput row.
Proof.
  intros E I. destruct (sessions_out_rows _ _ _ _ _ E I) as (cutoff & tree & Ec & Ep & Ic).
  destruct (collect_origin _ _ _ _ Ic) as (name & files & f & It & If & Ir).
  apply file_rows_origin in Ir. apply Ir.
Qed.

(** Witness of [session_rows_have_tokens]: the newer of two files. *)
Lemma session_rows_have_tokens_witness :
  exists out row,
    SessionsQuery.compute_sessions (F := spec_float) (sample_env (Some two_file_tree)) 7 50 = Some out
    /\ In row (SessionsOut.sessions out)
    /\ 0 < SessionRow.totalInput row + SessionRow.totalOutput row.
Proof.
  eexists. eexists. split; [vm_compute; reflexivity|].
  split; [left; reflexivity|].
  eapply (session_rows_have_tokens (F := spec_float) (sample_env (Some two_file_tree)) 7 50).
  - vm_compute. reflexivity.
  - left. reflexivity.
Defined.

(** X10: the [primaryModel] of the row a session file appends is a
    model of that session's tallies, and no model of the session has a
    larger sum of input and output tokens. *)
Theorem primary_model_has_most_tokens {F} `{PyFloat F} e cutoff project_display f row :
  In row (SessionsQuery.file_rows (F := F) e cutoff project_display f) ->
  exists u,
    PyDict.get (session_tallies f) (SessionRow.primaryModel row) = Some u
    /\ forall m u', PyDict.get (session_tallies f) m = Some u' ->
         input u' + output u' <= input u + output u.
Proof.
  intros Ir. apply file_rows_origin in Ir. apply Ir.
Qed.

(** Witness of [primary_model_has_most_tokens]: a session of two models. *)
Lemma primary_model_has_most_tokens_witness :
  exists row,
    In row (SessionsQuery.file_rows (F := spec_float) (sample_env None) sample_cutoff "~/proj"
              (readable "s1.jsonl" (day_us 20760) [stale_record; sonnet_record]))
    /\ exists u,
         PyDict.get (session_tallies (readable "s1.jsonl" (day_us 20760)
                                        [stale_record; sonnet_record]))
           (SessionRow.primaryModel row) = Some u
         /\ forall m u',
              PyDict.get (session_tallies (readable "s1.jsonl" (day_us 20760)
                                             [stale_record; sonnet_record])) m = Some u' ->
              input u' + output u' <= input u + output u.
Proof.
  eexists. split; [vm_compute; left; reflexivity|].
  eapply (primary_model_has_most_tokens (F := spec_float) (sample_env None) sample_cutoff "~/proj").
  vm_compute. left. reflexivity.
Defined.

(** X11: for one log tree, clock and window, the [total] of the
    sessions query never exceeds the [totalSessions] of the usage query:
    the usage query counts every file of the window, the sessions query
    only those that yield a row. *)
Theorem sessions_total_at_most_counted {F} `{PyFloat F} e days limit usage sessions :
  UsageQuery.compute_usage (F := F) e days = Some usage ->
  SessionsQuery.compute_sessions (F := F) e days limit = Some sessions ->
  SessionsOut.total sessions <= UsageOut.totalSessions usage.
Proof.
  unfold UsageQuery.compute_usage, SessionsQuery.compute_sessions.
  destruct (projects e) as [tree|].
  2:{ intros U S. inversion U; inversion S; subst. simpl. lia. }
  destruct (cutoff_of e days) as [cutoff|]; [|discriminate]. cbv zeta.
  destruct (UsageQuery.with_costs _) as [costed|]; [|discriminate].
  destruct (map_call _ _) as [costs|]; [|discriminate].
  destruct (py_sum costs) as [total|]; [|discriminate].
  intros U S. inversion U; inversion S; subst.
  cbn [UsageOut.totalSessions SessionsOut.total].
  rewrite <- (Permutation_length (sorted_desc_perm Z.ltb (@SessionRow.mtime F) _)).
  pose proof (usage_tree_counted (F := F) e cutoff (PyTime.strftime_ymd cutoff) tree UsageQuery.init) as C.
  unfold counted in C. unfold UsageQuery.scan. rewrite C.
  pose proof (collect_length (F := F) e cutoff tree). simpl. lia.
Qed.

(** Witness of [sessions_total_at_most_counted]: two files of the window. *)
Lemma sessions_total_at_most_counted_witness :
  exists usage sessions,
    UsageQuery.compute_usage (F := spec_float) (sample_env (Some two_file_tree)) 7 = Some usage
    /\ SessionsQuery.compute_sessions (F := spec_float) (sample_env (Some two_file_tree)) 7 50
       = Some sessions
    /\ SessionsOut.total sessions <= UsageOut.totalSessions usage.
Proof.
  eexists. eexists. split; [vm_compute; reflexivity|]. split; [vm_compute; reflexivity|].
  apply (sessions_total_at_most_counted (F := spec_float) (sample_env (Some two_file_tree)) 7 50).
  - vm_compute. reflexivity.
  - vm_compute. reflexivity.
Defined.

(** X12: the sort by modification time is stable.  Among the rows the
    sessions query returns, those of one modification time stand in the
    order in which the scan met them: they are a prefix of the matching
    rows of that modification time, in order of appending. *)
Theorem equal_mtime_keeps_scan_order {F} `{PyFloat F} e days limit cutoff out k :
  cutoff_of e days = Some cutoff ->
  SessionsQuery.compute_sessions (F := F) e days limit = Some out ->
  exists rest,
    filter (fun r => SessionRow.mtime r =? k) (matching_sessions e cutoff)
    = (filter (fun r => SessionRow.mtime r =? k) (SessionsOut.sessions out) ++ rest)%list.
Proof.
  intros Ec. unfold SessionsQuery.compute_sessions, matching_sessions.
  destruct (projects e) as [tree|].
  2:{ intros E. inversion E; subst out. exists []. reflexivity. }
  rewrite Ec. intros E. inversion E; subst out. cbn [SessionsOut.sessions].
  set (rows := SessionsQuery.collect e cutoff tree).
  rewrite <- (sorted_desc_ties (@SessionRow.mtime F) k rows).
  destruct (slice_to_prefix (Py.sorted_desc Z.ltb (@SessionRow.mtime F) rows) limit) as [rest R].
  exists (filter (fun r => SessionRow.mtime r =? k) rest).
  rewrite <- filter_app, <- R. reflexivity.
Qed.

(** Witness of [equal_mtime_keeps_scan_order]: two files of one
    modification time. *)
Lemma equal_mtime_keeps_scan_order_witness :
  exists out rest,
    SessionsQuery.compute_sessions (F := spec_float) (sample_env (Some tied_tree)) 7 50 = Some out
    /\ filter (fun r => SessionRow.mtime r =? day_us 20760)
         (matching_sessions (sample_env (Some tied_tree)) sample_cutoff)
       = (filter (fun r => SessionRow.mtime r =? day_us 20760) (SessionsOut.sessions out) ++ rest)%list.
Proof.
  destruct (equal_mtime_keeps_scan_order (F := spec_float) (sample_env (Some tied_tree)) 7 50
              sample_cutoff
              {| SessionsOut.sessions := Py.sorted_desc Z.ltb (@SessionRow.mtime spec_float)
                                           (matching_sessions (sample_env (Some tied_tree)) sample_cutoff);
                 SessionsOut.total := 2; SessionsOut.days := 7 |}
              (day_us 20760)) as [rest E].
  - vm_compute. reflexivity.
  - vm_compute. reflexivity.
  - eexists. exists rest. split; [vm_compute; reflexivity|].
    exact E.
Defined.

(** X13: a negative row limit raises nothing: the sessions query then
    returns the sorted rows without the last [-limit] of them, that is
    [max(0, total + limit)] rows, and [total] still counts all matching
    sessions. *)
Theorem negative_limit_drops_oldest {F} `{PyFloat F} e days limit cutoff :
  cutoff_of e days = Some cutoff ->
  limit < 0 ->
  exists out ordered,
    SessionsQuery.compute_sessions (F := F) e days limit = Some out
    /\ Permutation (matching_sessions e cutoff) ordered
    /\ StronglySorted (fun a b => SessionRow.mtime b <= SessionRow.mtime a) ordered
    /\ SessionsOut.sessions out = firstn (Z.to_nat (SessionsOut.total out + limit)) ordered
    /\ Z.of_nat (length (SessionsOut.sessions out)) = Z.max 0 (SessionsOut.total out + limit)
    /\ SessionsOut.total out = Z.of_nat (length (matching_sessions (F := F) e cutoff)).
Proof.
  intros Hc Hl. unfold SessionsQuery.compute_sessions, matching_sessions.
  destruct (projects e) as [tree|].
  - rewrite Hc.
    set (rows := SessionsQuery.collect e cutoff tree).
    set (ordered := Py.sorted_desc Z.ltb (@SessionRow.mtime F) rows).
    assert (P : Permutation rows ordered) by apply sorted_desc_perm.
    exists {| SessionsOut.sessions := Py.slice_to ordered limit;
              SessionsOut.total := Z.of_nat (length ordered);
              SessionsOut.days := days |}, ordered.
    assert (E : Py.slice_to ordered limit
                = firstn (Z.to_nat (Z.of_nat (length ordered) + limit)) ordered).
    { unfold Py.slice_to. destruct (Z.leb_spec 0 limit); [lia | reflexivity]. }
    pose proof (Permutation_length P) as L.
    cbn [SessionsOut.sessions SessionsOut.total]. rewrite E, length_firstn.
    split; [reflexivity|]. split; [exact P|]. split; [apply sorted_desc_sorted|].
    split; [reflexivity|]. split; [lia|]. rewrite L. reflexivity.
  - exists {| SessionsOut.sessions := []; SessionsOut.total := 0; SessionsOut.days := days |}, [].
    cbn [SessionsOut.sessions SessionsOut.total]. rewrite firstn_nil.
    split; [reflexivity|]. split; [constructor|]. split; [constructor|].
    split; [reflexivity|]. split; [simpl; lia | reflexivity].
Qed.

(** Witness of [negative_limit_drops_oldest]: two sessions, limit -1. *)
Lemma negative_limit_drops_oldest_witness :
  exists out ordered,
    SessionsQuery.compute_sessions (F := spec_float) (sample_env (Some tied_tree)) 7 (-1) = Some out
    /\ Permutation (matching_sessions (sample_env (Some tied_tree)) sample_cutoff) ordered
    /\ StronglySorted (fun a b => SessionRow.mtime b <= SessionRow.mtime a) ordered
    /\ SessionsOut.sessions out = firstn (Z.to_nat (SessionsOut.total out + -1)) ordered
    /\ Z.of_nat (length (SessionsOut.sessions out)) = Z.max 0 (SessionsOut.total out + -1)
    /\ SessionsOut.total out
       = Z.of_nat (length (matching_sessions (F := spec_float)
                             (sample_env (Some tied_tree)) sample_cutoff)).
Proof.
  apply (negative_limit_drops_oldest (F := spec_float) (sample_env (Some tied_tree)) 7 (-1)
           sample_cutoff).
  - vm_compute. reflexivity.
  - lia.
Defined.

(** ** Lines that are not records *)

(** A line that raises ends the loop over the lines, wherever it stands. *)
Lemma for_each_raises {S A} (body : A -> M S unit) pre l post :
  (forall s, fst (body l s) = Raise) ->
  forall s, fst (for_each body (pre ++ l :: post)%list s) = Raise.
Proof.
  intros R. induction pre as [|x r IH]; intros s; cbn [app for_each].
  - specialize (R s). destruct (body l s) as [[[]| |] s']; cbn [fst] in *; congruence.
  - destruct (body x s) as [[[]| |] s']; [apply IH | apply IH | reflexivity].
Qed.

(** When that line leaves the state as it is, the loop ends in the
    state the lines before it produce. *)
Lemma for_each_stops {S A} (body : A -> M S unit) pre l post :
  (forall s, body l s = (Raise, s)) ->
  forall s, snd (for_each body (pre ++ l :: post)%list s) = snd (for_each body pre s).
Proof.
  intros R. induction pre as [|x r IH]; intros s; cbn [app for_each].
  - rewrite R. reflexivity.
  - destruct (body x s) as [[[]| |] s']; [apply IH | apply IH | reflexivity].
Qed.

Section NonObject.

Context {F : Type} `{PyFloat F}.

Lemma sessions_line_not_object l (s : @SessionsQuery.state F) :
  PyStr.nonempty (PyStr.strip (l_text l)) = true ->
  PyStr.contains (quoted "timestamp") (l_text l)
  || PyStr.contains (quoted "usage") (l_text l)
  || PyStr.contains (quoted "type") (l_text l) = true ->
  not_an_object l ->
  fst (SessionsQuery.line_body l s) = Raise.
Proof.
  intros N Mk (v & Ej & D). unfold SessionsQuery.line_body. rewrite N. cbn [negb]. cbv zeta.
  destruct (PyStr.contains (quoted "timestamp") (l_text l)),
           (PyStr.contains (quoted "usage") (l_text l)),
           (PyStr.contains (quoted "type") (l_text l));
    try discriminate Mk; cbn [negb andb]; rewrite Ej;
    destruct v; try discriminate D; reflexivity.
Qed.

Lemma usage_line_not_object cutoff_str session_day l (s : @UsageQuery.state F) :
  PyStr.nonempty (PyStr.strip (l_text l)) = true ->
  PyStr.contains (quoted "usage") (PyStr.strip (l_text l)) = true ->
  not_an_object l ->
  UsageQuery.line_body cutoff_str session_day l s = (Raise, s).
Proof.
  intros N Mk (v & Ej & D). unfold UsageQuery.line_body. cbv zeta. rewrite N, Mk. cbn [negb orb].
  rewrite Ej. destruct v; try discriminate D; reflexivity.
Qed.

Lemma usage_scan_same_file e cutoff pre name before f1 f2 after post :
  (forall st, UsageQuery.file_body (F := F) e cutoff (PyTime.strftime_ymd cutoff) st f1
              = UsageQuery.file_body e cutoff (PyTime.strftime_ymd cutoff) st f2) ->
  UsageQuery.scan (F := F) e cutoff (tree_with pre name before f1 after post)
  = UsageQuery.scan e cutoff (tree_with pre name before f2 after post).
Proof.
  intros S. unfold UsageQuery.scan, tree_with.
  rewrite !fold_left_app. cbn [fold_left]. f_equal.
  unfold UsageQuery.project_body. cbn [snd].
  rewrite !fold_left_app. cbn [fold_left]. rewrite S. reflexivity.
Qed.

Lemma sessions_collect_dropped e cutoff pre name before f after post :
  SessionsQuery.file_rows (F := F) e cutoff (_decode_project_folder e name) f = [] ->
  SessionsQuery.collect (F := F) e cutoff (tree_with pre name before f after post)
  = SessionsQuery.collect e cutoff (tree_without pre name before after post).
Proof.
  intros S. unfold SessionsQuery.collect, tree_with, tree_without.
  rewrite !flat_map_app. cbn [flat_map]. f_equal. f_equal.
  unfold SessionsQuery.project_rows. cbn [fst snd].
  rewrite !flat_map_app. cbn [flat_map]. rewrite S. reflexivity.
Qed.

End NonObject.

(** X14: a session file with a line that is not blank, carries one of
    the three markers and parses to something other than an object gets
    no row: the sessions query answers as on the tree without the file,
    whatever the other lines of the file hold. *)
Theorem non_object_line_drops_session {F} `{PyFloat F}
  e days limit pre name before f after post lpre l lpost :
  f_lines f = Some (lpre ++ l :: lpost)%list ->
  PyStr.nonempty (PyStr.strip (l_text l)) = true ->
  PyStr.contains (quoted "timestamp") (l_text l)
  || PyStr.contains (quoted "usage") (l_text l)
  || PyStr.contains (quoted "type") (l_text l) = true ->
  not_an_object l ->
  SessionsQuery.compute_sessions (F := F)
    (with_projects e (Some (tree_with pre name before f after post))) days limit
  = SessionsQuery.compute_sessions
      (with_projects e (Some (tree_without pre name before after post))) days limit.
Proof.
  intros El N Mk D. unfold SessionsQuery.compute_sessions. cbn [projects with_projects].
  change (cutoff_of (with_projects e _) days) with (cutoff_of e days).
  destruct (cutoff_of e days) as [cutoff|]; [|reflexivity]. cbv zeta.
  rewrite !collect_env. rewrite sessions_collect_dropped; [reflexivity|].
  unfold SessionsQuery.file_rows. rewrite El.
  destruct (f_mtime f) as [mtime|]; [|reflexivity].
  destruct (fromtimestamp e mtime) as [dt|]; [|reflexivity].
  destruct (dt <? cutoff); [reflexivity|].
  pose proof (for_each_raises SessionsQuery.line_body lpre l lpost
                (fun s => sessions_line_not_object (F := F) l s N Mk D) SessionsQuery.init) as R.
  destruct (for_each SessionsQuery.line_body (lpre ++ l :: lpost) SessionsQuery.init) as [fl st].
  cbn [fst] in R. rewrite R. reflexivity.
Qed.

(** Witness of [non_object_line_drops_session]: a JSON list after a
    usage record. *)
Lemma non_object_line_drops_session_witness :
  SessionsQuery.compute_sessions (F := spec_float)
    (with_projects (sample_env None)
       (Some (tree_with [] "-home-asus-proj" []
                (readable "s1.jsonl" (day_us 20760) [sonnet_record; array_line])
                [readable "s2.jsonl" (day_us 20760) [sonnet_record]] []))) 7 50
  = SessionsQuery.compute_sessions
      (with_projects (sample_env None)
         (Some (tree_without [] "-home-asus-proj" []
                  [readable "s2.jsonl" (day_us 20760) [sonnet_record]] []))) 7 50.
Proof.
  apply (non_object_line_drops_session (F := spec_float) (sample_env None) 7 50
           [] "-home-asus-proj" []
           (readable "s1.jsonl" (day_us 20760) [sonnet_record; array_line])
           [readable "s2.jsonl" (day_us 20760) [sonnet_record]] []
           [sonnet_record] array_line []).
  - reflexivity.
  - vm_compute. reflexivity.
  - vm_compute. reflexivity.
  - exists (JArr [JStr "usage"; JStr "timestamp"]). split; reflexivity.
Defined.

(** X15: in the usage query, a line that is not blank, carries the
    usage marker and parses to something other than an object ends the
    scan of its file: the lines after it are not read, what the lines
    before it added stays, and the output is that of the tree where the
    file stops before that line. *)
Theorem usage_scan_stops_at_non_object_line {F} `{PyFloat F}
  e days pre name before f after post lpre l lpost :
  PyStr.nonempty (PyStr.strip (l_text l)) = true ->
  PyStr.contains (quoted "usage") (PyStr.strip (l_text l)) = true ->
  not_an_object l ->
  UsageQuery.compute_usage (F := F)
    (with_projects e (Some (tree_with pre name before (with_lines f (lpre ++ l :: lpost)) after post)))
    days
  = UsageQuery.compute_usage
      (with_projects e (Some (tree_with pre name before (with_lines f lpre) after post))) days.
Proof.
  intros N Mk D. unfold UsageQuery.compute_usage. cbn [projects with_projects].
  change (cutoff_of (with_projects e _) days) with (cutoff_of e days).
  destruct (cutoff_of e days) as [cutoff|]; [|reflexivity]. cbv zeta.
  assert (S : forall tree1 tree2,
             UsageQuery.scan (F := F) (with_projects e tree1) cutoff
               (tree_with pre name before (with_lines f (lpre ++ l :: lpost)) after post)
             = UsageQuery.scan (with_projects e tree2) cutoff
                 (tree_with pre name before (with_lines f lpre) after post)).
  { intros tree1 tree2.
    change (UsageQuery.scan (F := F) (with_projects e tree2) cutoff)
      with (UsageQuery.scan (F := F) (with_projects e tree1) cutoff).
    apply usage_scan_same_file. intros st.
    unfold UsageQuery.file_body, with_lines. cbn [f_mtime f_lines fromtimestamp with_projects].
    destruct (f_mtime f) as [mtime|]; [|reflexivity].
    destruct (fromtimestamp e mtime) as [dt|]; [|reflexivity].
    destruct (dt <? cutoff); [reflexivity|].
    apply for_each_stops. intros s. apply usage_line_not_object; assumption. }
  rewrite (S _ (Some (tree_with pre name before (with_lines f lpre) after post))). reflexivity.
Qed.

(** Witness of [usage_scan_stops_at_non_object_line]: a JSON list
    between two usage records. *)
Lemma usage_scan_stops_at_non_object_line_witness :
  UsageQuery.compute_usage (F := spec_float)
    (with_projects (sample_env None)
       (Some (tree_with [] "-home-asus-proj" []
                (with_lines (readable "s1.jsonl" (day_us 20760) [])
                   [sonnet_record; array_line; sonnet_record]) [] []))) 7
  = UsageQuery.compute_usage
      (with_projects (sample_env None)
         (Some (tree_with [] "-home-asus-proj" []
                  (with_lines (readable "s1.jsonl" (day_us 20760) []) [sonnet_record]) [] []))) 7.
Proof.
  apply (usage_scan_stops_at_non_object_line (F := spec_float) (sample_env None) 7
           [] "-home-asus-proj" [] (readable "s1.jsonl" (day_us 20760) []) [] []
           [sonnet_record] array_line [sonnet_record]).
  - vm_compute. reflexivity.
  - vm_compute. reflexivity.
  - exists (JArr [JStr "usage"; JStr "timestamp"]). split; reflexivity.
Defined.

(** ** Records of a synthetic model *)

Section Synthetic.

Context {F : Type} `{PyFloat F}.

Lemma usage_line_synthetic cutoff_str session_day l em mm um model (st : @UsageQuery.state F) :
  usage_record l em mm um ->
  record_model (JObj em) (JObj mm) = Some (JStr model) ->
  PyStr.startswith model "<" = true ->
  snd (UsageQuery.line_body cutoff_str session_day l st) = st.
Proof.
  intros (T1 & T2 & _ & Ej & Em & Eu & Nu & I) Rm St.
  assert (Gm : get_or em "message" (JObj []) = JObj mm) by (unfold get_or; rewrite Em; reflexivity).
  assert (Gu : get_or mm "usage" JNull = JObj um) by (unfold get_or; rewrite Eu; reflexivity).
  unfold UsageQuery.line_body. cbv zeta. rewrite T1, T2, Ej.
  cbn [negb orb bind call ret Py.get].
  destruct (Py.truthy (get_or em "timestamp" (JStr ""))).
  - destruct (Py.slice10 (get_or em "timestamp" (JStr ""))) as [d|]; [|reflexivity].
    destruct (Py.lt_str d cutoff_str) as [[]|]; cbn [call ret raise_ continue_]; try reflexivity.
    rewrite Gm. cbn [Py.is_dict negb bind call ret Py.get]. rewrite Gu.
    rewrite (truthy_obj um Nu). cbn [negb bind call ret].
    rewrite Rm. cbn [as_str bind call ret]. rewrite St. reflexivity.
  - cbn [call ret]. rewrite Gm. cbn [Py.is_dict negb bind call ret Py.get]. rewrite Gu.
    rewrite (truthy_obj um Nu). cbn [negb bind call ret].
    rewrite Rm. cbn [as_str bind call ret]. rewrite St. reflexivity.
Qed.

Lemma sessions_line_synthetic l em mm um model (st : @SessionsQuery.state F) :
  usage_record l em mm um ->
  record_model (JObj em) (JObj mm) = Some (JStr model) ->
  PyStr.startswith model "<" = true ->
  SessionsQuery.by_model (snd (SessionsQuery.line_body l st)) = SessionsQuery.by_model st.
Proof.
  intros (T1 & _ & T3 & Ej & Em & Eu & Nu & I) Rm St.
  assert (Gm : get_or em "message" (JObj []) = JObj mm) by (unfold get_or; rewrite Em; reflexivity).
  assert (Gu : get_or mm "usage" JNull = JObj um) by (unfold get_or; rewrite Eu; reflexivity).
  unfold SessionsQuery.line_body. cbv zeta. rewrite T1, T3, Ej.
  rewrite andb_false_r. cbn [negb andb].
  destruct (sessions_note_timestamp (PyStr.contains (quoted "timestamp") (l_text l)) em st)
    as (s1 & E1 & K1).
  rewrite (bind_ok _ _ _ _ _ E1).
  destruct (sessions_note_type (PyStr.contains (quoted "type") (l_text l)) em s1)
    as (s2 & E2 & K2).
  rewrite (bind_ok _ _ _ _ _ E2).
  cbn [bind call ret Py.get]. rewrite Gm.
  cbn [Py.is_dict negb bind call ret Py.get]. rewrite Gu.
  rewrite (truthy_obj um Nu). cbn [negb bind call ret].
  rewrite Rm. cbn [as_str bind call ret]. rewrite St. cbn [continue_ snd].
  rewrite K2, K1. reflexivity.
Qed.

End Synthetic.

(** X16: a usage record whose model name starts with [<] adds tokens
    nowhere: the usage scan leaves its three accumulators as they were,
    and the session scan leaves the tallies of the session as they were
    (it may still note the timestamp and count the message). *)
Theorem synthetic_model_counts_nowhere {F} `{PyFloat F} l em mm um model :
  usage_record l em mm um ->
  record_model (JObj em) (JObj mm) = Some (JStr model) ->
  PyStr.startswith model "<" = true ->
  (forall cutoff_str session_day (st : @UsageQuery.state F),
      snd (UsageQuery.line_body cutoff_str session_day l st) = st)
  /\ (forall st : @SessionsQuery.state F,
        SessionsQuery.by_model (snd (SessionsQuery.line_body l st)) = SessionsQuery.by_model st).
Proof.
  intros U R S. split.
  - intros. eapply usage_line_synthetic; eassumption.
  - intros. eapply sessions_line_synthetic; eassumption.
Qed.

Lemma synthetic_record_is_usage_record :
  usage_record synthetic_record synthetic_entry synthetic_message synthetic_usage.
Proof.
  repeat split; try (vm_compute; reflexivity); try discriminate.
  intros c. destruct c; eexists; reflexivity.
Qed.

(** Witness of [synthetic_model_counts_nowhere]: a record of the model
    [<synthetic>]. *)
Lemma synthetic_model_counts_nowhere_witness :
  (forall cutoff_str session_day (st : @UsageQuery.state spec_float),
      snd (UsageQuery.line_body cutoff_str session_day synthetic_record st) = st)
  /\ (forall st : @SessionsQuery.state spec_float,
        SessionsQuery.by_model (snd (SessionsQuery.line_body synthetic_record st))
        = SessionsQuery.by_model st).
Proof.
  apply (synthetic_model_counts_nowhere (F := spec_float) synthetic_record
           synthetic_entry synthetic_message synthetic_usage "<synthetic>").
  - exact synthetic_record_is_usage_record.
  - reflexivity.
  - reflexivity.
Defined.

(** ** A record that raises in the middle of its updates *)

Lemma bind_update_none {S B} (f : S -> option S) (k : unit -> M S B) s :
  f s = None -> bind (update f) k s = (Raise, s).
Proof. intros E. unfold bind, update. rewrite E. reflexivity. Qed.

(** X17: the four additions to the per-model tally come before the
    four additions to the day bucket, and an exception between them is
    swallowed by the handler around the file.  A usage record inside
    the window whose input count is an integer and whose output count
    is a string raises at the second addition: its input count is by
    then added to the model's tally, the day bucket holds the model with
    the tally it had before (zeros when new), and the session counts
    are untouched. *)
Theorem garbled_counter_leaves_partial_update {F} `{PyFloat F}
  cutoff_str session_day l em mm um n top ts (st : @UsageQuery.state F) :
  garbled_record l em mm um n ->
  record_model (JObj em) (JObj mm) = Some (JStr top) ->
  PyStr.startswith top "<" = false ->
  PyDict.get em "timestamp" = Some (JStr ts) ->
  PyStr.nonempty ts = true ->
  String.ltb (PyStr.take 10 ts) cutoff_str = false ->
  exists st',
    UsageQuery.line_body cutoff_str session_day l st = (Raise, st')
    /\ tally_of (UsageQuery.by_model st') top
       = set_counter c_input (tally_of (UsageQuery.by_model st) top)
           (input (tally_of (UsageQuery.by_model st) top) + n)
    /\ PyDict.get (UsageQuery.by_day st') (PyStr.take 10 ts)
       = Some (ensure (get_or (UsageQuery.by_day st) (PyStr.take 10 ts) []) top)
    /\ UsageQuery.sessions_by_day st' = UsageQuery.sessions_by_day st.
Proof.
  intros (T1 & T2 & Ej & Em & Eu & Ei & s & Eo) Rm St Ets Nts Lt.
  assert (Nu : um <> []) by (destruct um; [discriminate Ei | discriminate]).
  assert (Gts : get_or em "timestamp" (JStr "") = JStr ts) by (unfold get_or; rewrite Ets; reflexivity).
  assert (Gm : get_or em "message" (JObj []) = JObj mm) by (unfold get_or; rewrite Em; reflexivity).
  assert (Gu : get_or mm "usage" JNull = JObj um) by (unfold get_or; rewrite Eu; reflexivity).
  destruct (ensure_get (UsageQuery.by_model st) top) as [G0 _].
  unfold UsageQuery.line_body. cbv zeta. rewrite T1, T2, Ej.
  cbn [negb orb bind call ret Py.get]. rewrite !Gts.
  cbn [Py.truthy Py.slice10 Py.lt_str bind call ret as_str]. rewrite Nts, Lt, Gm.
  cbn [Py.is_dict negb bind call ret Py.get]. rewrite Gu.
  rewrite (truthy_obj um Nu). cbn [negb bind call ret].
  rewrite Rm. cbn [as_str bind call ret]. rewrite St.
  cbn [as_str bind call ret update].
  erewrite bind_update_some by reflexivity.
  erewrite bind_update_some.
  2:{ unfold UsageQuery.bump_model, bump. cbn [UsageQuery.by_model]. rewrite G0.
      cbn [Py.get log_key]. unfold get_or at 1. rewrite Ei. cbn [Py.int_add]. reflexivity. }
  rewrite bind_update_none.
  2:{ unfold UsageQuery.bump_model, bump. cbn [UsageQuery.by_model]. rewrite get_set_same.
      cbn [Py.get log_key]. unfold get_or at 1. rewrite Eo. reflexivity. }
  eexists. split; [reflexivity|]. cbn [UsageQuery.by_model UsageQuery.by_day UsageQuery.sessions_by_day].
  split; [|split; [apply get_set_same | reflexivity]].
  apply tally_of_get. rewrite get_set_same. reflexivity.
Qed.

(** Witness of [garbled_counter_leaves_partial_update]: the first
    record of a scan. *)
Lemma garbled_counter_leaves_partial_update_witness :
  exists st',
    UsageQuery.line_body (F := spec_float) "2026-10-28" "2026-11-03" garbled_line UsageQuery.init
    = (Raise, st')
    /\ tally_of (UsageQuery.by_model st') "m"
       = set_counter c_input (tally_of (UsageQuery.by_model (UsageQuery.init (F := spec_float))) "m")
           (input (tally_of (UsageQuery.by_model (UsageQuery.init (F := spec_float))) "m") + 7)
    /\ PyDict.get (UsageQuery.by_day st') (PyStr.take 10 "2026-11-03T10:00:00Z")
       = Some (ensure (get_or (UsageQuery.by_day (UsageQuery.init (F := spec_float)))
                         (PyStr.take 10 "2026-11-03T10:00:00Z") []) "m")
    /\ UsageQuery.sessions_by_day st'
       = UsageQuery.sessions_by_day (UsageQuery.init (F := spec_float)).
Proof.
  apply (garbled_counter_leaves_partial_update (F := spec_float) "2026-10-28" "2026-11-03"
           garbled_line garbled_entry garbled_message garbled_usage 7 "m" "2026-11-03T10:00:00Z").
  - repeat split; try (vm_compute; reflexivity). exists "many". reflexivity.
  - reflexivity.
  - reflexivity.
  - reflexivity.
  - reflexivity.
  - vm_compute. reflexivity.
Defined.
